(** * FinancasBob: classification, deduplication ledger and section allocator

  A shallow embedding of [FinancasBob_main.py]: the keyword classifier
  [CategorizadorIA], the transaction hash, the history ledger and the
  bounded row ranges of [IntegradorSheets].

  Modelling conventions.
  - A Python [str] is a Rocq [string] holding the UTF-8 bytes of the text
    (what [str.encode] gives); a character is a byte that is not a
    continuation byte, with the continuation bytes that follow it.
    [str.lower] maps the letters 'A'..'Z' to 'a'..'z' and leaves every
    other byte alone, which is what Python does on ASCII text (every
    keyword of the program is ASCII).
  - The column [Valor] holds a float64 that the reader obtained from a
    two-decimal bank amount.  It is modelled by the exact number of
    centavos, a [Z]; [str_valor] is the text Python's [str] gives for
    such a float (the shortest decimal that reads back to it), for
    amounts of up to 15 significant digits.  A frame whose column is
    int64 (a statement without any decimal amount), whose amounts print
    without a decimal part, is treated apart ([str_valor_em]).
  - The spreadsheet is an explicit store threaded through an error monad:
    every call of the gspread client may raise. *)

From Stdlib Require Import ZArith List Bool Ascii String Lia.
From Stdlib Require Import Decimal DecimalString DecimalPos DecimalN.
From stdpp Require Import base gmap strings.

Import ListNotations.
Local Open Scope string_scope.
Local Open Scope list_scope.
Local Open Scope Z_scope.
#[local] Arguments String.append : simpl nomatch.

(** ** Python strings *)

Module PyStr.

Definition lower_ascii (c : ascii) : ascii :=
  let n := nat_of_ascii c in
  if (Nat.leb 65 n && Nat.leb n 90)%bool then ascii_of_nat (n + 32) else c.

(** [s.lower()] *)
Fixpoint lower (s : string) : string :=
  match s with
  | EmptyString => EmptyString
  | String c t => String (lower_ascii c) (lower t)
  end.

(** [s.startswith(p)] *)
Fixpoint startswith (p s : string) : bool :=
  match p, s with
  | EmptyString, _ => true
  | String _ _, EmptyString => false
  | String a p', String b s' => Ascii.eqb a b && startswith p' s'
  end.

(** [sub in s]: [sub] occurs in [s] as a contiguous substring. *)
Fixpoint str_in (sub s : string) : bool :=
  startswith sub s ||
  match s with
  | EmptyString => false
  | String _ t => str_in sub t
  end.

(** [s.replace(c, '')] for a one-character [c]. *)
Fixpoint remove_char (c : ascii) (s : string) : string :=
  match s with
  | EmptyString => EmptyString
  | String a t =>
      if Ascii.eqb a c then remove_char c t else String a (remove_char c t)
  end.

(** A byte that continues a character of the text (10xxxxxx). *)
Definition continuacao (c : ascii) : bool :=
  let n := nat_of_ascii c in (Nat.leb 128 n && Nat.leb n 191)%bool.

(** [len(s)]: the number of characters. *)
Fixpoint len (s : string) : nat :=
  match s with
  | EmptyString => O
  | String a t => if continuacao a then len t else S (len t)
  end.

(** [s[:n]]: the first [n] characters, each with its continuation
    bytes. *)
Fixpoint take (n : nat) (s : string) : string :=
  match s with
  | EmptyString => EmptyString
  | String a t =>
      if continuacao a then String a (take n t)
      else match n with
           | O => EmptyString
           | S n' => String a (take n' t)
           end
  end.

(** The character [c] does not occur in [s]. *)
Fixpoint free_of (c : ascii) (s : string) : bool :=
  match s with
  | EmptyString => true
  | String a t => negb (Ascii.eqb a c) && free_of c t
  end.

End PyStr.

(** ** ENGINE DE CATEGORIZACAO *)

Module CategorizadorIA.
Import PyStr.

Definition MAPEAMENTO : list (string * list string) :=
  [ ("Transporte", ["uber"; "99"; "taxi"; "gasolina"; "posto"; "ipva";
                    "estacionamento"; "onibus"; "metro"]);
    ("Delivery", ["ifood"; "rappi"; "uber eats"; "delivery"]);
    ("Lazer", ["cinema"; "netflix"; "spotify"; "prime"; "disney";
               "restaurante"; "bar"; "show"]);
    ("Saude", ["medico"; "hospital"; "laboratorio"; "consulta"; "exame";
               "clinica"]);
    ("Farmacia", ["farmacia"; "droga"; "drogaria"; "remedio"]);
    ("Casa", ["aluguel"; "condominio"; "luz"; "agua"; "internet"; "gas";
              "energia"]);
    ("Supermercado", ["supermercado"; "mercado"; "atacadao";
                      "pao de acucar"; "assai"; "padaria"]);
    ("Roupa", ["roupa"; "sapato"; "loja"; "zara"; "renner"; "nike";
               "adidas"]);
    ("Faculdade", ["faculdade"; "universidade"; "curso"; "mensalidade";
                   "escola"]);
    ("Beleza", ["salao"; "cabelo"; "manicure"; "barbeiro"; "estetica"]);
    ("Assinaturas", ["assinatura"; "recorrente"; "tim"; "vivo"; "claro";
                     "oi"]);
    ("Presentes", ["presente"; "gift"]) ].

Definition GASTOS_FIXOS_KEYWORDS : list string :=
  [ "aluguel"; "condominio"; "luz"; "agua"; "internet"; "gas"; "energia";
    "tim"; "vivo"; "claro"; "oi"; "netflix"; "spotify"; "prime"; "disney";
    "faculdade"; "universidade"; "mensalidade"; "plano"; "assinatura";
    "academia" ].

(** [x.replace(' ', '').replace('.', '').replace('-', '')] *)
Definition limpar (s : string) : string :=
  remove_char "-" (remove_char "." (remove_char " " s)).

(** The loop over [GASTOS_FIXOS_KEYWORDS] with its [break]. *)
Definition calc_eh_fixo (desc_limpo : string) : bool :=
  existsb (fun palavra => str_in (limpar palavra) desc_limpo)
          GASTOS_FIXOS_KEYWORDS.

(** The loop over [MAPEAMENTO.items()], in declaration order: the first
    category one of whose keywords occurs in [desc]. *)
Fixpoint primeira_categoria (tabela : list (string * list string))
         (desc : string) : option string :=
  match tabela with
  | [] => None
  | (categoria, palavras) :: resto =>
      if existsb (fun palavra => str_in palavra desc) palavras
      then Some categoria
      else primeira_categoria resto desc
  end.

(** [categorizar(descricao, valor)], [valor] in centavos. *)
Definition categorizar (descricao : string) (valor : Z)
  : string * string * bool :=
  let desc := lower descricao in
  if (0 <? valor) || str_in "recebida" desc || str_in "salario" desc
  then ("Entrada", "Receita", false)
  else
    let desc_limpo := limpar desc in
    let eh_fixo := calc_eh_fixo desc_limpo in
    match primeira_categoria MAPEAMENTO desc with
    | Some categoria => (categoria, "Despesa", eh_fixo)
    | None => ("Necessidade", "Despesa", eh_fixo)
    end.

Definition identificar_forma_pagamento (descricao : string) : string :=
  let desc := lower descricao in
  if str_in "pix" desc then "Pix"
  else if str_in "cartao" desc || str_in "credito" desc then "Cartao"
  else "Pix".

End CategorizadorIA.

(** ** hashlib.md5

  [hashlib.md5(data).hexdigest()] (RFC 1321) on a byte string.  Words are
  32-bit integers carried as [Z] with the wrap-around written out. *)

Module Hashlib.

Definition w32 (x : Z) : Z := x mod 2 ^ 32.

Definition rotl (x c : Z) : Z :=
  w32 (Z.lor (Z.shiftl x c) (Z.shiftr x (32 - c))).

Definition not32 (x : Z) : Z := Z.lxor x (2 ^ 32 - 1).

Definition S_TABLE : list Z :=
  [ 7; 12; 17; 22; 7; 12; 17; 22; 7; 12; 17; 22; 7; 12; 17; 22;
    5; 9; 14; 20; 5; 9; 14; 20; 5; 9; 14; 20; 5; 9; 14; 20;
    4; 11; 16; 23; 4; 11; 16; 23; 4; 11; 16; 23; 4; 11; 16; 23;
    6; 10; 15; 21; 6; 10; 15; 21; 6; 10; 15; 21; 6; 10; 15; 21 ].

(** [K_TABLE[i] = floor(2^32 * abs(sin(i + 1)))] *)
Definition K_TABLE : list Z :=
  [ 3614090360; 3905402710; 606105819; 3250441966;
    4118548399; 1200080426; 2821735955; 4249261313;
    1770035416; 2336552879; 4294925233; 2304563134;
    1804603682; 4254626195; 2792965006; 1236535329;
    4129170786; 3225465664; 643717713; 3921069994;
    3593408605; 38016083; 3634488961; 3889429448;
    568446438; 3275163606; 4107603335; 1163531501;
    2850285829; 4243563512; 1735328473; 2368359562;
    4294588738; 2272392833; 1839030562; 4259657740;
    2763975236; 1272893353; 4139469664; 3200236656;
    681279174; 3936430074; 3572445317; 76029189;
    3654602809; 3873151461; 530742520; 3299628645;
    4096336452; 1126891415; 2878612391; 4237533241;
    1700485571; 2399980690; 4293915773; 2240044497;
    1873313359; 4264355552; 2734768916; 1309151649;
    4149444226; 3174756917; 718787259; 3951481745 ].

Record estado := { rA : Z; rB : Z; rC : Z; rD : Z }.

Definition inicial : estado :=
  {| rA := 0x67452301; rB := 0xefcdab89; rC := 0x98badcfe; rD := 0x10325476 |}.

(** One of the 64 operations on the 16-word block [m]. *)
Definition passo (m : list Z) (st : estado) (i : nat) : estado :=
  let '(Build_estado a b c d) := st in
  let '(f, g) :=
    match Nat.div i 16 with
    | 0%nat => (Z.lor (Z.land b c) (Z.land (not32 b) d), i)
    | 1%nat => (Z.lor (Z.land d b) (Z.land (not32 d) c),
                Nat.modulo (5 * i + 1) 16)
    | 2%nat => (Z.lxor b (Z.lxor c d), Nat.modulo (3 * i + 5) 16)
    | _ => (Z.lxor c (Z.lor b (not32 d)), Nat.modulo (7 * i) 16)
    end in
  let f' := w32 (f + a + nth i K_TABLE 0 + nth g m 0) in
  {| rA := d; rB := w32 (b + rotl f' (nth i S_TABLE 0)); rC := b; rD := c |}.

(** Little-endian 32-bit words of a byte list. *)
Fixpoint palavras (bs : list Z) : list Z :=
  match bs with
  | b0 :: b1 :: b2 :: b3 :: r =>
      (b0 + 2 ^ 8 * b1 + 2 ^ 16 * b2 + 2 ^ 24 * b3) :: palavras r
  | _ => []
  end.

Definition bloco (st : estado) (m : list Z) : estado :=
  let st' := fold_left (passo m) (seq 0 64) st in
  {| rA := w32 (rA st + rA st'); rB := w32 (rB st + rB st');
     rC := w32 (rC st + rC st'); rD := w32 (rD st + rD st') |}.

(** [n] little-endian bytes of [x]. *)
Fixpoint bytes_le (n : nat) (x : Z) : list Z :=
  match n with
  | O => []
  | S n' => x mod 256 :: bytes_le n' (x / 256)
  end.

(** The message followed by 0x80, zeros up to 56 mod 64, and the bit
    length on 8 bytes. *)
Definition preencher (msg : list Z) : list Z :=
  let n := List.length msg in
  let zeros := Nat.modulo (64 + 55 - Nat.modulo n 64) 64 in
  msg ++ [128] ++ repeat 0 zeros ++ bytes_le 8 (8 * Z.of_nat n).

(** The blocks of 16 words; [fuel] bounds the number of blocks. *)
Fixpoint blocos (fuel : nat) (ws : list Z) : list (list Z) :=
  match fuel, ws with
  | O, _ | _, [] => []
  | S fuel', _ => firstn 16 ws :: blocos fuel' (skipn 16 ws)
  end.

Definition digest (msg : list Z) : list Z :=
  let ws := palavras (preencher msg) in
  let st := fold_left bloco (blocos (List.length ws) ws) inicial in
  bytes_le 4 (rA st) ++ bytes_le 4 (rB st) ++
  bytes_le 4 (rC st) ++ bytes_le 4 (rD st).

Definition hex_digit (n : Z) : ascii :=
  ascii_of_nat (Z.to_nat (if n <? 10 then 48 + n else 87 + n)).

Fixpoint hex (bs : list Z) : string :=
  match bs with
  | [] => EmptyString
  | b :: r => String (hex_digit (b / 16)) (String (hex_digit (b mod 16)) (hex r))
  end.

(** [s.encode()] on text held as its bytes. *)
Fixpoint str_encode (s : string) : list Z :=
  match s with
  | EmptyString => []
  | String c t => Z.of_nat (nat_of_ascii c) :: str_encode t
  end.

Definition md5_hexdigest (msg : list Z) : string := hex (digest msg).

End Hashlib.

(** ** Records of a statement and their text *)

(** A row of the frame the reader returns: [df[['Data', 'Descricao', 'Valor']]]. *)
Record Transacao := { Data : string; Descricao : string; Valor : Z }.

Module Texto.

(** Decimal digits of a natural number, as [str(n)] writes them. *)
Definition str_nat (n : N) : string := NilZero.string_of_uint (N.to_uint n).

(** [str(v)] for the float [v / 100]: sign, integer part, point, and the
    fraction without a trailing zero ([-23.5], [100.0], [0.05]). *)
Definition str_valor (v : Z) : string :=
  let a := Z.to_N (Z.abs v) in
  let f := (a mod 100)%N in
  String.append (if v <? 0 then "-" else "")
    (String.append (str_nat (a / 100))
       (String.append "."
          (String.append (str_nat (f / 10))
             (if (f mod 10 =? 0)%N then "" else str_nat (f mod 10))))).

Definition dois_digitos (n : N) : string :=
  if (n <? 10)%N then String.append "0" (str_nat n) else str_nat n.

Definition quatro_digitos (n : N) : string :=
  if (n <? 10)%N then String.append "000" (str_nat n)
  else if (n <? 100)%N then String.append "00" (str_nat n)
  else if (n <? 1000)%N then String.append "0" (str_nat n)
  else str_nat n.

(** [ts.strftime('%d/%m/%Y')], the form in which the reader leaves the
    column [Data]. *)
Definition strftime_dmY (dia mes ano : N) : string :=
  String.append (dois_digitos dia)
    (String.append "/" (String.append (dois_digitos mes)
       (String.append "/" (quatro_digitos ano)))).

End Texto.

(** ** INTEGRADOR GOOGLE SHEETS: the store *)

Inductive excecao := WorksheetNotFound | APIError.

Inductive resultado (A : Type) :=
| Ok (a : A)
| Raise (e : excecao).
Arguments Ok {A} a.
Arguments Raise {A} e.

(** The spreadsheet as the client sees it.
  - [aba_mes]: the cells of the month's worksheet, by column letter and
    row number; an absent key or the empty text is an empty cell.
  - [historico]: the rows of the worksheet [ABA_HISTORICO] as
    [get_all_values] returns them, or [None] while it does not exist.
  - [falhas]: the fate of the requests still to come, one entry per
    request; [true] makes that request raise [APIError]. *)
Record Planilha := {
aba_mes : gmap (string * Z) string;
historico : option (list (list string));
falhas : list bool
}.

Definition M (A : Type) : Type := Planilha -> resultado A * Planilha.

Definition ret {A} (a : A) : M A := fun s => (Ok a, s).

Definition bind {A B} (m : M A) (k : A -> M B) : M B :=
fun s => match m s with
         | (Ok a, s') => k a s'
         | (Raise e, s') => (Raise e, s')
         end.

Definition raise {A} (e : excecao) : M A := fun s => (Raise e, s).

(** [try: m except E: h], where [pega e] tells whether [E] covers [e]. *)
Definition tentar {A} (m : M A) (pega : excecao -> bool) (h : excecao -> M A)
: M A :=
fun s => match m s with
         | (Ok a, s') => (Ok a, s')
         | (Raise e, s') => if pega e then h e s' else (Raise e, s')
         end.

Declare Scope sheets_scope.
Delimit Scope sheets_scope with sheets.
Notation "x <~ m ;; k" := (bind m (fun x => k))
(at level 20, m at level 99, k at level 200) : sheets_scope.
Notation "m ;;; k" := (bind m (fun _ => k))
(at level 100, k at level 200, right associativity) : sheets_scope.
Local Open Scope sheets_scope.

Module Gspread.

(** One round trip to the service. *)
Definition requisicao : M unit :=
  fun s => match falhas s with
           | [] => (Ok tt, s)
           | f :: resto =>
               let s' := {| aba_mes := aba_mes s; historico := historico s;
                            falhas := resto |} in
               if f then (Raise APIError, s') else (Ok tt, s')
           end.

Definition celula (g : gmap (string * Z) string) (col : string) (l : Z)
  : string := default "" (g !! (col, l)).

(** Trailing empty rows are left out of a response. *)
Fixpoint aparar (ls : list (list string)) : list (list string) :=
  match ls with
  | [] => []
  | l :: r =>
      match aparar r, l with
      | [], [] => []
      | r', _ => l :: r'
      end
  end.

(** The rows [inicio..fim] of one column, each a list with the cell's
    value, or the empty list for an empty cell. *)
Definition linhas_da_coluna (g : gmap (string * Z) string) (col : string)
           (inicio fim : Z) : list (list string) :=
  map (fun k => let v := celula g col (inicio + Z.of_nat k) in
                if String.eqb v "" then [] else [v])
      (seq 0 (Z.to_nat (fim - inicio + 1))).

(** [aba_mes.get(f'{col}{inicio}:{col}{fim}', ...)]: the values of the
    range as the service returns them, that is without the trailing empty
    rows; a range with no value at all gives the empty list, the case
    [if not valores: return inicio] of the caller is written for. *)
Definition aba_mes_get (col : string) (inicio fim : Z)
  : M (list (list string)) :=
  requisicao ;;;
  fun s => (Ok (aparar (linhas_da_coluna (aba_mes s) col inicio fim)), s).

(** [aba_mes.update([[v]], f'{col}{linha}')] *)
Definition aba_mes_update (v : string) (col : string) (linha : Z) : M unit :=
  requisicao ;;;
  fun s => (Ok tt, {| aba_mes := <[(col, linha) := v]> (aba_mes s);
                      historico := historico s; falhas := falhas s |}).

(** [planilha.worksheet(ABA_HISTORICO)] *)
Definition worksheet_historico : M unit :=
  requisicao ;;;
  fun s => match historico s with
           | Some _ => (Ok tt, s)
           | None => (Raise WorksheetNotFound, s)
           end.

(** [planilha.add_worksheet(ABA_HISTORICO, 1000, 10)] *)
Definition add_worksheet_historico : M unit :=
  requisicao ;;;
  fun s => (Ok tt, {| aba_mes := aba_mes s; historico := Some [];
                      falhas := falhas s |}).

(** [aba.get_all_values()], also what [get_as_dataframe] reads. *)
Definition get_all_values : M (list (list string)) :=
  requisicao ;;;
  fun s => (Ok (default [] (historico s)), s).

(** The cells of [novo] laid over the row [velho]. *)
Definition sobrepor (novo velho : list string) : list string :=
  novo ++ skipn (List.length novo) velho.

Fixpoint sobrescrever (dados linhas : list (list string))
  : list (list string) :=
  match dados with
  | [] => linhas
  | d :: ds => sobrepor d (hd [] linhas) :: sobrescrever ds (tl linhas)
  end.

(** The rows [dados] written from the row of index [pos] (0-based) on. *)
Fixpoint escrever_em (pos : nat) (dados linhas : list (list string))
  : list (list string) :=
  match pos with
  | O => sobrescrever dados linhas
  | S p =>
      match dados with
      | [] => linhas
      | _ => hd [] linhas :: escrever_em p dados (tl linhas)
      end
  end.

(** [aba.update(dados, f'A{linha}')] on the history worksheet. *)
Definition historico_update (dados : list (list string)) (linha : nat)
  : M unit :=
  requisicao ;;;
  fun s => (Ok tt, {| aba_mes := aba_mes s;
                      historico := Some (escrever_em (linha - 1) dados
                                           (default [] (historico s)));
                      falhas := falhas s |}).

End Gspread.

(** ** gspread_dataframe: how a column of the ledger is read

    [get_as_dataframe] hands the cells to the pandas text parser, which
    infers a type for each column.  The texts of the default missing
    values are dropped; when every cell left reads as a number the column
    is a column of floats, and when every cell left reads as a boolean it
    is a column of booleans: no text is in it then.  Otherwise the cells
    left stay the texts they are. *)

Module GspreadDataframe.

Definition STR_NA_VALUES : list string :=
  [ ""; "#N/A"; "#N/A N/A"; "#NA"; "-1.#IND"; "-1.#QNAN"; "-NaN"; "-nan";
    "1.#IND"; "1.#QNAN"; "<NA>"; "N/A"; "NA"; "NULL"; "NaN"; "None"; "n/a";
    "nan"; "null" ].

Definition eh_nulo (v : string) : bool :=
  existsb (String.eqb v) STR_NA_VALUES.

Definition VALORES_BOOL : list string :=
  [ "True"; "TRUE"; "true"; "False"; "FALSE"; "false" ].

Definition parece_bool (v : string) : bool :=
  existsb (String.eqb v) VALORES_BOOL.

Definition eh_digito (c : ascii) : bool :=
  let n := nat_of_ascii c in (Nat.leb 48 n && Nat.leb n 57)%bool.

Definition eh_espaco (c : ascii) : bool :=
  let n := nat_of_ascii c in (Nat.eqb n 32 || (Nat.leb 9 n && Nat.leb n 13))%bool.

Fixpoint pular (p : ascii -> bool) (s : string) : string :=
  match s with
  | EmptyString => EmptyString
  | String c t => if p c then pular p t else s
  end.

Definition comeca_com (p : ascii -> bool) (s : string) : bool :=
  match s with
  | EmptyString => false
  | String c _ => p c
  end.

Definition pular_sinal (s : string) : string :=
  match s with
  | String c t => if (Ascii.eqb c "+" || Ascii.eqb c "-")%bool then t else s
  | EmptyString => EmptyString
  end.

(** What is left of [s] after a mantissa (digits with an optional
    fraction, or a fraction alone), if [s] starts with one. *)
Definition apos_mantissa (s : string) : option string :=
  if comeca_com eh_digito s then
    match pular eh_digito s with
    | String "." t => Some (pular eh_digito t)
    | r => Some r
    end
  else
    match s with
    | String "." t =>
        if comeca_com eh_digito t then Some (pular eh_digito t) else None
    | _ => None
    end.

(** What is left of [s] after an exponent, if [s] starts with the letter
    of one; an exponent without digits is not an exponent. *)
Definition apos_expoente (s : string) : string :=
  match s with
  | String c t =>
      if (Ascii.eqb c "e" || Ascii.eqb c "E")%bool then
        let t' := pular_sinal t in
        if comeca_com eh_digito t' then pular eh_digito t' else s
      else s
  | EmptyString => EmptyString
  end.

Definition INFINITOS : list string := [ "inf"; "infinity" ].

(** The cell reads as a number: blanks, a sign, a mantissa, an exponent,
    blanks, and nothing more; or an infinity. *)
Definition parece_numero (v : string) : bool :=
  let s := pular_sinal (pular eh_espaco v) in
  match apos_mantissa s with
  | Some r => String.eqb (pular eh_espaco (apos_expoente r)) ""
  | None => existsb (String.eqb (PyStr.lower s)) INFINITOS
  end.

(** The texts of the column once the parser has read it. *)
Definition coluna_lida (celulas : list string) : list string :=
  let presentes := List.filter (fun v => negb (eh_nulo v)) celulas in
  if (forallb parece_numero presentes || forallb parece_bool presentes)%bool
  then []
  else presentes.

End GspreadDataframe.

(** ** CONFIGURACOES GLOBAIS *)

Module Config.
Definition ENTRADAS_INICIO_LINHA : Z := 10.
Definition ENTRADAS_FIM_LINHA : Z := 19.
Definition ENTRADAS_COL_DESCRICAO : string := "B".
Definition VARIAVEIS_INICIO_LINHA : Z := 25.
Definition VARIAVEIS_FIM_LINHA : Z := 51.
Definition VARIAVEIS_COL_DESCRICAO : string := "B".
Definition FIXOS_INICIO_LINHA : Z := 17.
Definition FIXOS_FIM_LINHA : Z := 26.
Definition FIXOS_COL_DESCRICAO : string := "H".
Definition CABECALHO_HISTORICO : list string :=
  ["Hash"; "Data"; "Descricao"; "Valor"; "Data_Importacao"].
End Config.

(** ** INTEGRADOR GOOGLE SHEETS: the methods *)

Module IntegradorSheets.
Import PyStr Texto Hashlib Gspread CategorizadorIA.

(** [f"{row['Data']}|{row['Descricao']}|{row['Valor']}"] *)
Definition texto_transacao (row : Transacao) : string :=
  String.append (Data row)
    (String.append "|" (String.append (Descricao row)
       (String.append "|" (str_valor (Valor row))))).

Definition _gerar_hash_transacao (row : Transacao) : string :=
  md5_hexdigest (str_encode (texto_transacao row)).

(** A row of the frame once [df['Hash']] is set. *)
Record LinhaHash := { transacao : Transacao; Hash : string }.

(** [df['Hash'] = df.apply(self._gerar_hash_transacao, axis=1)] *)
Definition com_hash (df : list Transacao) : list LinhaHash :=
  map (fun row => {| transacao := row; Hash := _gerar_hash_transacao row |}) df.

Definition _criar_aba_historico : M unit :=
  add_worksheet_historico ;;;
  historico_update [Config.CABECALHO_HISTORICO] 1.

(** Position of the first column named [nome] in the header. *)
Fixpoint indice_coluna (nome : string) (colunas : list string) : option nat :=
  match colunas with
  | [] => None
  | c :: r => if String.eqb c nome then Some O
              else option_map S (indice_coluna nome r)
  end.

(** The cells of the column of index [i], an absent cell being empty. *)
Definition celulas_da_coluna (i : nat) (dados : list (list string))
  : list string :=
  map (fun l => nth i l "") dados.

(** The text members of [set(df['Hash'].dropna().tolist())] for the frame
    [get_as_dataframe] builds: the first row names the columns, and the
    column is read as [GspreadDataframe.coluna_lida] tells. *)
Definition hashes_da_tabela (valores : list (list string)) : list string :=
  match valores with
  | [] => []
  | colunas :: dados =>
      match indice_coluna "Hash" colunas with
      | None => []
      | Some i => GspreadDataframe.coluna_lida (celulas_da_coluna i dados)
      end
  end.

Definition eh_WorksheetNotFound (e : excecao) : bool :=
  match e with WorksheetNotFound => true | _ => false end.

Definition _get_transacoes_existentes : M (gset string) :=
  tentar
    (worksheet_historico ;;;
     valores <~ get_all_values ;;
     ret (list_to_set (hashes_da_tabela valores)))
    eh_WorksheetNotFound
    (fun _ => _criar_aba_historico ;;; ret ∅).

(** [not linha_valores or linha_valores[0] in [None, '']] *)
Definition linha_vazia (linha_valores : list string) : bool :=
  match linha_valores with
  | [] => true
  | v :: _ => String.eqb v ""
  end.

(** The [for] loop of [_encontrar_proxima_linha_vazia]. *)
Fixpoint percorrer (valores : list (list string)) (linha_atual : Z)
  : option Z :=
  match valores with
  | [] => None
  | linha_valores :: resto =>
      if linha_vazia linha_valores then Some linha_atual
      else percorrer resto (linha_atual + 1)
  end.

Definition _encontrar_proxima_linha_vazia (coluna : string) (inicio fim : Z)
  : M (option Z) :=
  valores <~ aba_mes_get coluna inicio fim ;;
  match valores with
  | [] => ret (Some inicio)
  | _ => ret (percorrer valores inicio)
  end.

(** The [for _, row in df.iterrows()] loop of [_inserir_generico]. *)
Fixpoint inserir_linhas (df : list Transacao) (col_desc : string)
         (linha fim : Z) : M unit :=
  match df with
  | [] => ret tt
  | row :: resto =>
      if fim <? linha then ret tt
      else
        aba_mes_update (take 50 (Descricao row)) col_desc linha ;;;
        inserir_linhas resto col_desc (linha + 1) fim
  end.

Definition _inserir_generico (df : list Transacao) (col_desc : string)
           (inicio fim : Z) : M unit :=
  linha <~ _encontrar_proxima_linha_vazia col_desc inicio fim ;;
  match linha with
  | Some l =>
      if negb (l =? 0) && (l <=? fim)
      then inserir_linhas df col_desc l fim
      else ret tt
  | None => ret tt
  end.

Definition _inserir_entradas (df : list Transacao) : M unit :=
  _inserir_generico df Config.ENTRADAS_COL_DESCRICAO
    Config.ENTRADAS_INICIO_LINHA Config.ENTRADAS_FIM_LINHA.

Definition _inserir_gastos_fixos (df : list Transacao) : M unit :=
  _inserir_generico df Config.FIXOS_COL_DESCRICAO
    Config.FIXOS_INICIO_LINHA Config.FIXOS_FIM_LINHA.

Definition _inserir_gastos_variaveis (df : list Transacao) : M unit :=
  _inserir_generico df Config.VARIAVEIS_COL_DESCRICAO
    Config.VARIAVEIS_INICIO_LINHA Config.VARIAVEIS_FIM_LINHA.

Definition tipo_de (row : Transacao) : string :=
  snd (fst (categorizar (Descricao row) (Valor row))).

Definition eh_fixo_de (row : Transacao) : bool :=
  snd (categorizar (Descricao row) (Valor row)).

Definition _processar_insercoes (df : list LinhaHash) : M unit :=
  let linhas := map transacao df in
  _inserir_entradas
    (List.filter (fun r => String.eqb (tipo_de r) "Receita") linhas) ;;;
  _inserir_gastos_fixos
    (List.filter (fun r => String.eqb (tipo_de r) "Despesa" && eh_fixo_de r)
            linhas) ;;;
  _inserir_gastos_variaveis
    (List.filter (fun r => String.eqb (tipo_de r) "Despesa" && negb (eh_fixo_de r))
            linhas).

(** A row of [df[['Hash', 'Data', 'Descricao', 'Valor', 'Data_Importacao']]];
    [agora] is [datetime.now().strftime('%d/%m/%Y %H:%M:%S')]. *)
Definition linha_historico (agora : string) (r : LinhaHash) : list string :=
  [ Hash r; Data (transacao r); Descricao (transacao r);
    str_valor (Valor (transacao r)); agora ].

Definition _atualizar_historico (agora : string) (df : list LinhaHash)
  : M unit :=
  tentar
    (worksheet_historico ;;;
     valores <~ get_all_values ;;
     let prox_linha := (List.length valores + 1)%nat in
     historico_update (map (linha_historico agora) df) prox_linha)
    (fun _ => true)
    (fun _ => ret tt).

(** [importar_transacoes(df)]; [main] calls it on a frame that is not
    empty. *)
Definition importar_transacoes (agora : string) (df : list Transacao)
  : M unit :=
  let dfh := com_hash df in
  hashes_existentes <~ _get_transacoes_existentes ;;
  let df_novas :=
    List.filter (fun r => negb (bool_decide (Hash r ∈ hashes_existentes))) dfh in
  match df_novas with
  | [] => ret tt
  | _ =>
      _processar_insercoes df_novas ;;;
      _atualizar_historico agora df_novas
  end.

End IntegradorSheets.

(** * Properties *)

(** ** Substrings *)

Section Substrings.
Import PyStr.

Lemma startswith_app (p s : string) :
  startswith p s = true <-> exists r, s = String.append p r.
Proof.
  revert s. induction p as [|a p IH]; intros s; simpl.
  - split; [intros _; exists s; reflexivity | reflexivity].
  - destruct s as [|b s].
    + split; [discriminate | intros [r Hr]; discriminate].
    + rewrite andb_true_iff, Ascii.eqb_eq, IH. split.
      * intros [-> [r ->]]. exists r. reflexivity.
      * intros [r Hr]. injection Hr as -> ->. split; [reflexivity | eauto].
Qed.

Lemma append_assoc (a b c : string) :
  String.append (String.append a b) c = String.append a (String.append b c).
Proof. induction a as [|x a IH]; simpl; [reflexivity | now rewrite IH]. Qed.

Lemma append_nil_r (a : string) : String.append a "" = a.
Proof. induction a as [|x a IH]; simpl; [reflexivity | now rewrite IH]. Qed.

(** [sub in s] holds exactly when [s] splits around a copy of [sub]. *)
Lemma str_in_spec (sub s : string) :
  str_in sub s = true <->
  exists a b, s = String.append a (String.append sub b).
Proof.
  induction s as [|c s IH]; simpl.
  - rewrite orb_false_r, startswith_app. split.
    + intros [r Hr]. exists "", r. exact Hr.
    + intros [a [b Hab]]. destruct a; [eauto | discriminate].
  - rewrite orb_true_iff, startswith_app, IH. split.
    + intros [[r Hr] | [a [b Hab]]].
      * exists "", r. exact Hr.
      * exists (String c a), b. simpl. now rewrite Hab.
    + intros [a [b Hab]]. destruct a as [|x a]; simpl in Hab.
      * left. eauto.
      * right. injection Hab as _ ->. eauto.
Qed.

Lemma lower_append (a b : string) :
  lower (String.append a b) = String.append (lower a) (lower b).
Proof. induction a as [|x a IH]; simpl; [reflexivity | now rewrite IH]. Qed.

(** A keyword already in lower case survives [lower]. *)
Lemma str_in_lower (kw s : string) :
  lower kw = kw -> str_in kw s = true -> str_in kw (lower s) = true.
Proof.
  intros Hkw. rewrite !str_in_spec. intros [a [b ->]].
  exists (lower a), (lower b). now rewrite !lower_append, Hkw.
Qed.

Lemma remove_char_append (c : ascii) (a b : string) :
  remove_char c (String.append a b)
  = String.append (remove_char c a) (remove_char c b).
Proof.
  induction a as [|x a IH]; simpl; [reflexivity |].
  destruct (Ascii.eqb x c); simpl; now rewrite IH.
Qed.

Lemma remove_char_free (c : ascii) (s : string) :
  free_of c s = true -> remove_char c s = s.
Proof.
  induction s as [|x s IH]; simpl; [reflexivity |].
  rewrite andb_true_iff, negb_true_iff. intros [-> Hs]. now rewrite IH.
Qed.

(** A keyword without the removed character survives [replace(c, '')]. *)
Lemma str_in_remove_char (c : ascii) (kw s : string) :
  free_of c kw = true -> str_in kw s = true ->
  str_in kw (remove_char c s) = true.
Proof.
  intros Hkw. rewrite !str_in_spec. intros [a [b ->]].
  exists (remove_char c a), (remove_char c b).
  now rewrite !remove_char_append, (remove_char_free c kw Hkw).
Qed.

End Substrings.

(** ** The classifier *)

Section Classificador.
Import PyStr CategorizadorIA.

(** No keyword of the table [tabela] occurs in [desc]. *)
Definition nenhuma_palavra (tabela : list (string * list string))
           (desc : string) : Prop :=
  forall categoria palavras palavra,
    In (categoria, palavras) tabela -> In palavra palavras ->
    str_in palavra desc = false.

Lemma primeira_categoria_None tabela desc :
  primeira_categoria tabela desc = None <-> nenhuma_palavra tabela desc.
Proof.
  unfold nenhuma_palavra. induction tabela as [|[c ps] t IH]; simpl.
  - split; [intros _ ? ? ? [] | reflexivity].
  - destruct (existsb _ ps) eqn:E.
    + split; [discriminate |]. intros H. exfalso.
      apply existsb_exists in E as [p [Hp Hin]].
      rewrite (H c ps p) in Hin; [discriminate | now left | exact Hp].
    + rewrite IH. split.
      * intros H c' ps' p [Heq | Hin] Hp.
        -- injection Heq as <- <-.
           destruct (str_in p desc) eqn:Ep; [| reflexivity].
           assert (existsb (fun palavra => str_in palavra desc) ps = true)
             as E' by (apply existsb_exists; eauto).
           congruence.
        -- eapply H; eauto.
      * intros H c' ps' p Hin Hp. eapply H; [right |]; eauto.
Qed.

Lemma primeira_categoria_In tabela desc c :
  primeira_categoria tabela desc = Some c -> In c (map fst tabela).
Proof.
  induction tabela as [|[c' ps] t IH]; simpl; [discriminate |].
  destruct (existsb _ ps).
  - intros [= ->]. now left.
  - intros H. right. now apply IH.
Qed.

(** The table is scanned in order: a match in [t2] counts only when
    [t1] has none. *)
Lemma primeira_categoria_app t1 t2 desc :
  primeira_categoria t1 desc = None ->
  primeira_categoria (t1 ++ t2) desc = primeira_categoria t2 desc.
Proof.
  induction t1 as [|[c ps] t IH]; simpl; [reflexivity |].
  destruct (existsb _ ps); [discriminate | exact IH].
Qed.

Lemma primeira_categoria_hit c ps t p desc :
  In p ps -> str_in p desc = true ->
  primeira_categoria ((c, ps) :: t) desc = Some c.
Proof.
  intros Hin Hp. simpl.
  assert (existsb (fun palavra => str_in palavra desc) ps = true) as ->
    by (apply existsb_exists; eauto).
  reflexivity.
Qed.

Lemma limpar_keeps (kw s : string) :
  free_of " " kw = true -> free_of "." kw = true -> free_of "-" kw = true ->
  str_in kw s = true -> str_in kw (limpar s) = true.
Proof.
  intros H1 H2 H3 H. unfold limpar.
  now repeat apply str_in_remove_char.
Qed.

(** What [categorizar] returns past the income test. *)
Lemma categorizar_despesa descricao valor :
  valor <= 0 ->
  str_in "recebida" (lower descricao) = false ->
  str_in "salario" (lower descricao) = false ->
  categorizar descricao valor =
    (default "Necessidade" (primeira_categoria MAPEAMENTO (lower descricao)),
     "Despesa", calc_eh_fixo (limpar (lower descricao))).
Proof.
  intros Hv H1 H2. unfold categorizar. rewrite H1, H2.
  assert ((0 <? valor) = false) as -> by (apply Z.ltb_ge; exact Hv).
  simpl orb. cbv iota.
  destruct (primeira_categoria MAPEAMENTO (lower descricao)); reflexivity.
Qed.

End Classificador.

Section ClassificadorClaims.
Import PyStr CategorizadorIA Texto Hashlib IntegradorSheets.

Lemma aluguel_eh_fixo (desc : string) :
  str_in "aluguel" desc = true -> calc_eh_fixo (limpar desc) = true.
Proof.
  intros H. unfold calc_eh_fixo. apply existsb_exists.
  exists "aluguel". split; [now left |].
  change (limpar "aluguel") with "aluguel".
  now apply limpar_keeps.
Qed.

(** C8, as the code has it: a description with "aluguel" that reaches the
    expense branch is a fixed expense, and its category is never the
    fallback "Necessidade", because "aluguel" is a keyword of "Casa": the
    category is "Casa" unless a category declared before it (Transporte,
    Delivery, Lazer, Saude, Farmacia) has a keyword in the description. *)
Theorem C8_aluguel_fixo_categoria_casa (descricao : string) (valor : Z) :
  valor <= 0 ->
  str_in "recebida" (lower descricao) = false ->
  str_in "salario" (lower descricao) = false ->
  str_in "aluguel" (lower descricao) = true ->
  exists categoria,
    categorizar descricao valor = (categoria, "Despesa", true) /\
    categoria <> "Necessidade" /\
    (nenhuma_palavra (firstn 5 MAPEAMENTO) (lower descricao) ->
     categoria = "Casa").
Proof.
  intros Hv H1 H2 Ha.
  rewrite (categorizar_despesa _ _ Hv H1 H2), (aluguel_eh_fixo _ Ha).
  destruct (primeira_categoria MAPEAMENTO (lower descricao)) as [c|] eqn:E.
  - exists c. split; [reflexivity |]. split.
    + apply primeira_categoria_In in E. intros ->.
      vm_compute in E. intuition discriminate.
    + intros Hn. apply primeira_categoria_None in Hn.
      change MAPEAMENTO with (firstn 5 MAPEAMENTO ++ skipn 5 MAPEAMENTO) in E.
      rewrite (primeira_categoria_app _ _ _ Hn) in E.
      change (skipn 5 MAPEAMENTO) with
        (("Casa", ["aluguel"; "condominio"; "luz"; "agua"; "internet"; "gas";
                   "energia"]) :: skipn 6 MAPEAMENTO) in E.
      rewrite (primeira_categoria_hit _ _ _ "aluguel") in E;
        [congruence | now left | exact Ha].
  - exfalso. apply primeira_categoria_None in E.
    rewrite (E "Casa" ["aluguel"; "condominio"; "luz"; "agua"; "internet";
                       "gas"; "energia"] "aluguel") in Ha.
    + discriminate.
    + unfold MAPEAMENTO. do 5 right. now left.
    + now left.
Qed.

Lemma C8_aluguel_fixo_categoria_casa_witness :
  exists categoria,
    categorizar "Aluguel Janeiro" (-150000) = (categoria, "Despesa", true) /\
    categoria <> "Necessidade" /\
    (nenhuma_palavra (firstn 5 MAPEAMENTO) (lower "Aluguel Janeiro") ->
     categoria = "Casa").
Proof.
  apply (C8_aluguel_fixo_categoria_casa "Aluguel Janeiro" (-150000)).
  - lia.
  - reflexivity.
  - reflexivity.
  - reflexivity.
Defined.

(** C8 as stated fails: the rent of January is an expense with "aluguel"
    in its description, and its category is "Casa", not "Necessidade". *)
Lemma C8_aluguel_nao_cai_em_necessidade :
  -150000 <= 0 /\
  str_in "recebida" (lower "Aluguel Janeiro") = false /\
  str_in "salario" (lower "Aluguel Janeiro") = false /\
  str_in "aluguel" (lower "Aluguel Janeiro") = true /\
  categorizar "Aluguel Janeiro" (-150000) = ("Casa", "Despesa", true) /\
  categorizar "Aluguel Janeiro" (-150000) <> ("Necessidade", "Despesa", true).
Proof. split; [lia |]. repeat (split; [reflexivity |]). discriminate. Qed.

(** C9, as the code has it: with a negative amount and no income marker,
    a description with "ifood" is an expense of category "Delivery"
    provided no keyword of "Transporte", the one category declared before
    "Delivery", occurs in it. *)
Theorem C9_ifood_delivery (descricao : string) (valor : Z) :
  valor < 0 ->
  str_in "recebida" (lower descricao) = false ->
  str_in "salario" (lower descricao) = false ->
  str_in "ifood" (lower descricao) = true ->
  nenhuma_palavra (firstn 1 MAPEAMENTO) (lower descricao) ->
  fst (categorizar descricao valor) = ("Delivery", "Despesa").
Proof.
  intros Hv H1 H2 Hi Hn.
  rewrite (categorizar_despesa descricao valor); [| lia | exact H1 | exact H2].
  apply primeira_categoria_None in Hn.
  change MAPEAMENTO with (firstn 1 MAPEAMENTO ++ skipn 1 MAPEAMENTO).
  rewrite (primeira_categoria_app _ _ _ Hn).
  change (skipn 1 MAPEAMENTO) with
    (("Delivery", ["ifood"; "rappi"; "uber eats"; "delivery"])
       :: skipn 2 MAPEAMENTO).
  rewrite (primeira_categoria_hit _ _ _ "ifood");
    [reflexivity | now left | exact Hi].
Qed.

Lemma sem_transporte_ifood_pedido :
  nenhuma_palavra (firstn 1 MAPEAMENTO) (lower "IFOOD *Pedido").
Proof.
  apply primeira_categoria_None. reflexivity.
Qed.

Lemma C9_ifood_delivery_witness :
  fst (categorizar "IFOOD *Pedido" (-4590)) = ("Delivery", "Despesa").
Proof.
  apply (C9_ifood_delivery "IFOOD *Pedido" (-4590)).
  - lia.
  - reflexivity.
  - reflexivity.
  - reflexivity.
  - exact sem_transporte_ifood_pedido.
Defined.

(** C9 as stated fails: an order number with "99" in it makes
    "Transporte", declared first, win over "Delivery". *)
Lemma C9_ifood_com_99_e_transporte :
  -4590 < 0 /\
  str_in "recebida" (lower "IFOOD *Pedido 1299") = false /\
  str_in "salario" (lower "IFOOD *Pedido 1299") = false /\
  str_in "ifood" (lower "IFOOD *Pedido 1299") = true /\
  categorizar "IFOOD *Pedido 1299" (-4590) = ("Transporte", "Despesa", false) /\
  fst (fst (categorizar "IFOOD *Pedido 1299" (-4590))) <> "Delivery".
Proof. split; [lia |]. repeat (split; [reflexivity |]). discriminate. Qed.

(** C10: the record of 2024-01-05, "UBER *TRIP", -23.50: its hash is the
    MD5 of "05/01/2024|UBER *TRIP|-23.5", it is a variable expense of
    category "Transporte", and its payment method is the default "Pix",
    no payment keyword occurring in the description. *)
Theorem C10_uber_trip :
  let row := {| Data := strftime_dmY 5 1 2024; Descricao := "UBER *TRIP";
                Valor := -2350 |} in
  texto_transacao row = "05/01/2024|UBER *TRIP|-23.5" /\
  _gerar_hash_transacao row
    = md5_hexdigest (str_encode "05/01/2024|UBER *TRIP|-23.5") /\
  _gerar_hash_transacao row = "d6a5568b1152680043e71ce062c27c5c" /\
  categorizar (Descricao row) (Valor row) = ("Transporte", "Despesa", false) /\
  identificar_forma_pagamento (Descricao row) = "Pix" /\
  str_in "pix" (lower (Descricao row)) = false /\
  str_in "cartao" (lower (Descricao row)) = false /\
  str_in "credito" (lower (Descricao row)) = false.
Proof. vm_compute. repeat split. Qed.

End ClassificadorClaims.

(** ** The text of a record determines the record *)

Section TextoInjetivo.
Import PyStr Texto Hashlib IntegradorSheets.

(** Every character of [s] is a decimal digit. *)
Fixpoint so_digitos (s : string) : bool :=
  match s with
  | EmptyString => true
  | String a t =>
      (Nat.leb 48 (nat_of_ascii a) && Nat.leb (nat_of_ascii a) 57)%bool
      && so_digitos t
  end.

Lemma so_digitos_append (a b : string) :
  so_digitos (String.append a b) = so_digitos a && so_digitos b.
Proof.
  induction a as [|x a IH]; simpl; [reflexivity |].
  now rewrite IH, andb_assoc.
Qed.

Lemma free_of_append (c : ascii) (a b : string) :
  free_of c (String.append a b) = free_of c a && free_of c b.
Proof.
  induction a as [|x a IH]; simpl; [reflexivity |].
  now rewrite IH, andb_assoc.
Qed.

(** A character that is not a digit does not occur among digits. *)
Lemma so_digitos_free (c : ascii) (s : string) :
  (Nat.leb 48 (nat_of_ascii c) && Nat.leb (nat_of_ascii c) 57)%bool = false ->
  so_digitos s = true -> free_of c s = true.
Proof.
  intros Hc. induction s as [|x s IH]; cbn [so_digitos free_of];
    [reflexivity |].
  rewrite andb_true_iff. intros [Hx Hs]. rewrite (IH Hs), andb_true_r.
  apply negb_true_iff. destruct (Ascii.eqb_spec x c) as [-> |]; congruence.
Qed.

Lemma so_digitos_uint (d : uint) :
  so_digitos (NilEmpty.string_of_uint d) = true.
Proof. induction d; simpl; auto. Qed.

Lemma str_nat_NilEmpty (n : N) :
  str_nat n = NilEmpty.string_of_uint (N.to_uint n).
Proof.
  unfold str_nat, NilZero.string_of_uint.
  destruct (N.to_uint n) eqn:E; try reflexivity.
  destruct n as [|p]; [discriminate |].
  now apply Unsigned.to_uint_nonnil in E.
Qed.

Lemma so_digitos_str_nat (n : N) : so_digitos (str_nat n) = true.
Proof. rewrite str_nat_NilEmpty. apply so_digitos_uint. Qed.

Lemma str_nat_inj (n m : N) : str_nat n = str_nat m -> n = m.
Proof.
  rewrite !str_nat_NilEmpty. intros H.
  apply DecimalN.Unsigned.to_uint_inj.
  assert (Some (N.to_uint n) = Some (N.to_uint m)) as E
    by (rewrite <- !NilEmpty.usu; now f_equal).
  now injection E.
Qed.

Lemma str_nat_nonempty (n : N) :
  exists a t, str_nat n = String a t /\ so_digitos (String a t) = true.
Proof.
  pose proof (so_digitos_str_nat n) as Hd.
  destruct (str_nat n) as [|a t] eqn:E.
  - exfalso. rewrite str_nat_NilEmpty in E.
    destruct (N.to_uint n) eqn:En; try discriminate.
    destruct n as [|p]; [discriminate |].
    now apply Unsigned.to_uint_nonnil in En.
  - eauto.
Qed.

(** Two texts that split at their first [c] split alike. *)
Lemma split_no_primeiro (c : ascii) (a1 a2 r1 r2 : string) :
  free_of c a1 = true -> free_of c a2 = true ->
  String.append a1 (String c r1) = String.append a2 (String c r2) ->
  a1 = a2 /\ r1 = r2.
Proof.
  revert a2. induction a1 as [|x a1 IH]; intros [|y a2]; simpl.
  - intros _ _ [= ->]. now split.
  - rewrite andb_true_iff, negb_true_iff. intros _ [Hy _] [= <- _].
    now rewrite Ascii.eqb_refl in Hy.
  - rewrite andb_true_iff, negb_true_iff. intros [Hx _] _ [= -> _].
    now rewrite Ascii.eqb_refl in Hx.
  - rewrite !andb_true_iff. intros [_ H1] [_ H2] [= -> H].
    destruct (IH a2 H1 H2 H) as [-> ->]. now split.
Qed.

(** Two texts that split at their last [c] split alike. *)
Lemma split_no_ultimo (c : ascii) (a1 a2 r1 r2 : string) :
  free_of c r1 = true -> free_of c r2 = true ->
  String.append a1 (String c r1) = String.append a2 (String c r2) ->
  a1 = a2 /\ r1 = r2.
Proof.
  intros H1 H2. revert a2. induction a1 as [|x a1 IH]; intros [|y a2]; simpl.
  - intros [= ->]. now split.
  - intros [= <- ->]. rewrite free_of_append in H1. simpl in H1.
    rewrite Ascii.eqb_refl in H1. simpl in H1. now rewrite andb_false_r in H1.
  - intros [= -> <-]. rewrite free_of_append in H2. simpl in H2.
    rewrite Ascii.eqb_refl in H2. simpl in H2. now rewrite andb_false_r in H2.
  - intros [= -> H]. destruct (IH a2 H) as [-> ->]. now split.
Qed.

(** The digits after the point, for a number of centavos below 100. *)
Definition str_fracao (f : N) : string :=
  String.append (str_nat (f / 10))
    (if (f mod 10 =? 0)%N then "" else str_nat (f mod 10)).

Definition fracoes : list N := map N.of_nat (seq 0 100).

Lemma fracoes_In (f : N) : (f < 100)%N -> In f fracoes.
Proof.
  intros H. unfold fracoes. apply in_map_iff. exists (N.to_nat f).
  split; [apply N2Nat.id | apply in_seq; lia].
Qed.

Lemma str_fracao_inj (f g : N) :
  (f < 100)%N -> (g < 100)%N -> str_fracao f = str_fracao g -> f = g.
Proof.
  intros Hf Hg H.
  assert (forallb (fun f => forallb (fun g =>
            implb (String.eqb (str_fracao f) (str_fracao g)) (f =? g)%N)
            fracoes) fracoes = true) as T by (vm_compute; reflexivity).
  rewrite forallb_forall in T. specialize (T f (fracoes_In f Hf)).
  rewrite forallb_forall in T. specialize (T g (fracoes_In g Hg)).
  rewrite H, String.eqb_refl in T. simpl in T. now apply N.eqb_eq.
Qed.

Lemma so_digitos_str_fracao (f : N) : so_digitos (str_fracao f) = true.
Proof.
  unfold str_fracao. rewrite so_digitos_append, so_digitos_str_nat.
  destruct (f mod 10 =? 0)%N; [reflexivity | apply so_digitos_str_nat].
Qed.

Lemma str_valor_eq (v : Z) :
  str_valor v =
  String.append (if v <? 0 then "-" else "")
    (String.append (str_nat (Z.to_N (Z.abs v) / 100))
       (String "." (str_fracao (Z.to_N (Z.abs v) mod 100)))).
Proof. reflexivity. Qed.

(** Distinct amounts have distinct texts. *)
Lemma str_valor_inj (v w : Z) : str_valor v = str_valor w -> v = w.
Proof.
  rewrite !str_valor_eq.
  set (a := Z.to_N (Z.abs v)). set (b := Z.to_N (Z.abs w)).
  destruct (str_nat_nonempty (a / 100)) as [x [t [Ea Da]]].
  destruct (str_nat_nonempty (b / 100)) as [y [u [Eb Db]]].
  assert (Hcore :
    String.append (str_nat (a / 100)) (String "." (str_fracao (a mod 100)))
    = String.append (str_nat (b / 100)) (String "." (str_fracao (b mod 100)))
    -> a = b).
  { intros H. apply split_no_primeiro in H as [H1 H2].
    - apply str_nat_inj in H1.
      apply str_fracao_inj in H2; try (apply N.mod_lt; discriminate).
      rewrite (N.div_mod a 100), (N.div_mod b 100) by discriminate.
      now rewrite H1, H2.
    - apply so_digitos_free; [reflexivity | apply so_digitos_str_nat].
    - apply so_digitos_free; [reflexivity | apply so_digitos_str_nat]. }
  destruct (Z.ltb_spec v 0) as [Hv | Hv], (Z.ltb_spec w 0) as [Hw | Hw]; simpl.
  - intros [= H]. apply Hcore in H. subst a b. lia.
  - rewrite Eb. simpl. intros [= <- _]. discriminate Db.
  - rewrite Ea. simpl. intros [= -> _]. discriminate Da.
  - intros H. apply Hcore in H. subst a b. lia.
Qed.

Lemma free_of_str_valor (v : Z) : free_of "|" (str_valor v) = true.
Proof.
  rewrite str_valor_eq, !free_of_append. cbn [free_of].
  rewrite (so_digitos_free "|" (str_nat _)), (so_digitos_free "|" (str_fracao _));
    try reflexivity; auto using so_digitos_str_nat, so_digitos_str_fracao.
  now destruct (v <? 0).
Qed.


(** Records with a date free of the separator have the same text only if
    they are the same record. *)
Lemma texto_transacao_inj (r1 r2 : Transacao) :
  free_of "|" (Data r1) = true -> free_of "|" (Data r2) = true ->
  texto_transacao r1 = texto_transacao r2 -> r1 = r2.
Proof.
  destruct r1 as [d1 e1 v1], r2 as [d2 e2 v2]. unfold texto_transacao. simpl.
  intros H1 H2 H.
  apply split_no_primeiro in H as [-> H]; [| assumption | assumption].
  apply split_no_ultimo in H as [-> H]; try apply free_of_str_valor.
  now apply str_valor_inj in H as ->.
Qed.

(** The reader's dates never hold the separator. *)
Lemma free_of_strftime (dia mes ano : N) :
  free_of "|" (strftime_dmY dia mes ano) = true.
Proof.
  assert (D : forall n, free_of "|" (str_nat n) = true)
    by (intros n; apply so_digitos_free;
        [reflexivity | apply so_digitos_str_nat]).
  unfold strftime_dmY, dois_digitos, quatro_digitos.
  repeat match goal with
         | |- context [if ?b then _ else _] => destruct b
         end;
    rewrite ?free_of_append, ?D; reflexivity.
Qed.

(** The digest is never the empty text. *)
Lemma md5_hexdigest_nonempty (msg : list Z) : md5_hexdigest msg <> "".
Proof.
  unfold md5_hexdigest, digest. cbv zeta.
  set (st := fold_left bloco _ inicial). simpl. discriminate.
Qed.

End TextoInjetivo.


(** ** The store *)

Section Loja.
Import Gspread IntegradorSheets.

Definition com_aba_mes (g : gmap (string * Z) string) (s : Planilha)
  : Planilha :=
  {| aba_mes := g; historico := historico s; falhas := falhas s |}.

Definition com_historico (h : option (list (list string))) (s : Planilha)
  : Planilha :=
  {| aba_mes := aba_mes s; historico := h; falhas := falhas s |}.

Lemma requisicao_ok (s : Planilha) :
  falhas s = [] -> requisicao s = (Ok tt, s).
Proof. intros H. unfold requisicao. now rewrite H. Qed.

(** A request touches neither worksheet. *)
Lemma requisicao_frame (s : Planilha) :
  aba_mes (snd (requisicao s)) = aba_mes s /\
  historico (snd (requisicao s)) = historico s.
Proof.
  unfold requisicao. destruct (falhas s) as [|[] f]; simpl; auto.
Qed.

Lemma requisicao_casos (s : Planilha) :
  (exists s', requisicao s = (Ok tt, s') /\ aba_mes s' = aba_mes s /\
              historico s' = historico s /\
              (falhas s = [] -> falhas s' = [])) \/
  (exists s', requisicao s = (Raise APIError, s') /\ aba_mes s' = aba_mes s /\
              historico s' = historico s /\ falhas s <> []).
Proof.
  unfold requisicao. destruct (falhas s) as [|[] f] eqn:E.
  - left. exists s. auto.
  - right. eexists. repeat split. discriminate.
  - left. eexists. repeat split. discriminate.
Qed.

(** The row the search of [_encontrar_proxima_linha_vazia] yields on the
    cells [g]. *)
Definition proxima_linha (g : gmap (string * Z) string) (col : string)
           (inicio fim : Z) : option Z :=
  match aparar (linhas_da_coluna g col inicio fim) with
  | [] => Some inicio
  | valores => percorrer valores inicio
  end.

Lemma encontrar_sem_falhas col inicio fim (s : Planilha) :
  falhas s = [] ->
  _encontrar_proxima_linha_vazia col inicio fim s
  = (Ok (proxima_linha (aba_mes s) col inicio fim), s).
Proof.
  intros H. unfold _encontrar_proxima_linha_vazia, aba_mes_get, bind.
  rewrite (requisicao_ok s H). unfold proxima_linha.
  destruct (aparar _); reflexivity.
Qed.

(** The search reads; it writes nothing. *)
Lemma encontrar_frame col inicio fim (s : Planilha) :
  let '(r, s') := _encontrar_proxima_linha_vazia col inicio fim s in
  aba_mes s' = aba_mes s /\ historico s' = historico s /\
  (falhas s = [] -> falhas s' = []) /\
  (forall l, r = Ok (Some l) -> inicio <= l).
Proof.
  unfold _encontrar_proxima_linha_vazia, aba_mes_get, bind.
  destruct (requisicao_casos s) as [[s' [-> [H1 [H2 H3]]]] | [s' [-> [H1 [H2 H3]]]]].
  - assert (P : forall vs l0 l, percorrer vs l0 = Some l -> l0 <= l).
    { induction vs as [|v vs IH]; simpl; [discriminate |]. intros l0 l.
      destruct (linha_vazia v); [intros [= ->]; lia |].
      intros H. apply IH in H. lia. }
    destruct (aparar _) as [|v vs] eqn:E; unfold ret.
    + repeat split; auto. intros l [= ->]. lia.
    + repeat split; auto. intros l [= H]. exact (P (v :: vs) inicio l H).
  - repeat split; auto; try discriminate. intros H. contradiction.
Qed.

(** The cells [inserir_linhas] writes, one description per row. *)
Fixpoint escrever_descricoes (col : string) (linha : Z) (df : list Transacao)
         (g : gmap (string * Z) string) : gmap (string * Z) string :=
  match df with
  | [] => g
  | row :: resto =>
      escrever_descricoes col (linha + 1) resto
        (<[(col, linha) := PyStr.take 50 (Descricao row)]> g)
  end.

Lemma inserir_linhas_sem_falhas df col linha fim (s : Planilha) :
  falhas s = [] ->
  inserir_linhas df col linha fim s
  = (Ok tt,
     com_aba_mes (escrever_descricoes col linha
                    (firstn (Z.to_nat (fim - linha + 1)) df) (aba_mes s)) s).
Proof.
  revert linha s. induction df as [|row df IH]; intros linha s H; simpl.
  - rewrite firstn_nil. destruct s; reflexivity.
  - destruct (Z.ltb_spec fim linha) as [Hl | Hl].
    + replace (Z.to_nat (fim - linha + 1)) with O by lia.
      destruct s; reflexivity.
    + replace (Z.to_nat (fim - linha + 1))
        with (S (Z.to_nat (fim - (linha + 1) + 1))) by lia.
      unfold bind at 1, aba_mes_update, bind. rewrite (requisicao_ok s H).
      rewrite IH by exact H. reflexivity.
Qed.

Lemma inserir_linhas_frame df col inicio fim linha (s : Planilha) :
  inicio <= linha ->
  let '(r, s') := inserir_linhas df col linha fim s in
  (forall c l, c <> col \/ l < inicio \/ fim < l ->
               aba_mes s' !! (c, l) = aba_mes s !! (c, l)) /\
  historico s' = historico s.
Proof.
  revert linha s. induction df as [|row df IH]; intros linha s Hl; simpl.
  - unfold ret. auto.
  - destruct (Z.ltb_spec fim linha) as [Hf | Hf]; [unfold ret; auto |].
    unfold bind at 1, aba_mes_update, bind.
    destruct (requisicao_casos s)
      as [[s1 [-> [H1 [H2 _]]]] | [s1 [-> [H1 [H2 _]]]]].
    + specialize (IH (linha + 1)
        {| aba_mes := <[(col, linha) := PyStr.take 50 (Descricao row)]> (aba_mes s1);
           historico := historico s1; falhas := falhas s1 |}
        ltac:(lia)).
      destruct (inserir_linhas df col (linha + 1) fim _) as [r s'].
      destruct IH as [IHa IHh]. simpl in IHa, IHh. split.
      * intros c l Hcl. rewrite (IHa c l Hcl), lookup_insert_ne, H1.
        -- reflexivity.
        -- intros [= -> ->]. destruct Hcl as [? | [? | ?]];
             [congruence | lia | lia].
      * congruence.
    + split; [intros; now rewrite H1 | exact H2].
Qed.

End Loja.

(** ** The bounded sections *)

Section Secao.
Import Gspread IntegradorSheets.

(** One section's insertion touches only its own rows, whether or not a
    request fails on the way. *)
Lemma inserir_generico_frame
      (df : list Transacao) (col_desc : string) (inicio fim : Z)
      (s : Planilha) :
  let '(r, s') := _inserir_generico df col_desc inicio fim s in
  (forall c l, c <> col_desc \/ l < inicio \/ fim < l ->
               aba_mes s' !! (c, l) = aba_mes s !! (c, l)) /\
  historico s' = historico s.
Proof.
  unfold _inserir_generico, bind.
  pose proof (encontrar_frame col_desc inicio fim s) as F.
  destruct (_encontrar_proxima_linha_vazia col_desc inicio fim s)
    as [[[l|]|e] s1]; destruct F as [F1 [F2 [_ F4]]].
  - destruct (negb (l =? 0) && (l <=? fim)).
    + pose proof (inserir_linhas_frame df col_desc inicio fim l s1
                    (F4 l eq_refl)) as I.
      destruct (inserir_linhas df col_desc l fim s1) as [r s'].
      destruct I as [I1 I2]. split.
      * intros c k H. now rewrite (I1 c k H), F1.
      * congruence.
    + unfold ret. split; [intros; now rewrite F1 | exact F2].
  - unfold ret. split; [intros; now rewrite F1 | exact F2].
  - split; [intros; now rewrite F1 | exact F2].
Qed.

(** The cells after one section's insertion, when no request fails. *)
Definition apos_insercao (df : list Transacao) (col : string)
           (inicio fim : Z) (g : gmap (string * Z) string)
  : gmap (string * Z) string :=
  match proxima_linha g col inicio fim with
  | Some l =>
      if negb (l =? 0) && (l <=? fim)
      then escrever_descricoes col l (firstn (Z.to_nat (fim - l + 1)) df) g
      else g
  | None => g
  end.

Lemma inserir_generico_sem_falhas df col inicio fim (s : Planilha) :
  falhas s = [] ->
  _inserir_generico df col inicio fim s
  = (Ok tt, com_aba_mes (apos_insercao df col inicio fim (aba_mes s)) s).
Proof.
  intros H. unfold _inserir_generico, bind, apos_insercao.
  rewrite (encontrar_sem_falhas _ _ _ _ H).
  destruct (proxima_linha _ _ _ _) as [l|]; [| destruct s; reflexivity].
  destruct (negb (l =? 0) && (l <=? fim)); [| destruct s; reflexivity].
  now apply inserir_linhas_sem_falhas.
Qed.

Lemma processar_historico (df : list LinhaHash) (s : Planilha) :
  historico (snd (_processar_insercoes df s)) = historico s.
Proof.
  unfold _processar_insercoes, _inserir_entradas, _inserir_gastos_fixos,
    _inserir_gastos_variaveis, bind.
  match goal with
  | |- context [_inserir_generico ?d ?c ?i ?f s] =>
      pose proof (inserir_generico_frame d c i f s) as A;
      destruct (_inserir_generico d c i f s) as [[[]|e1] s1]
  end; destruct A as [_ A]; [| exact A].
  match goal with
  | |- context [_inserir_generico ?d ?c ?i ?f s1] =>
      pose proof (inserir_generico_frame d c i f s1) as B;
      destruct (_inserir_generico d c i f s1) as [[[]|e2] s2]
  end; destruct B as [_ B]; [| simpl; congruence].
  match goal with
  | |- context [_inserir_generico ?d ?c ?i ?f s2] =>
      pose proof (inserir_generico_frame d c i f s2) as C;
      destruct (_inserir_generico d c i f s2) as [r3 s3]
  end; destruct C as [_ C]. simpl. congruence.
Qed.

(** Outside the rows it fills, [escrever_descricoes] changes nothing;
    row [linha + k] receives the description of the record of index [k],
    cut at 50 characters. *)
Lemma escrever_descricoes_fora col linha df g c l :
  c <> col \/ l < linha \/ linha + Z.of_nat (List.length df) <= l ->
  escrever_descricoes col linha df g !! (c, l) = g !! (c, l).
Proof.
  revert linha g. induction df as [|row df IH]; intros linha g H;
    cbn [escrever_descricoes]; [reflexivity |].
  cbn [List.length] in H. rewrite IH.
  - apply lookup_insert_ne. intros [= -> ->]. destruct H as [? | ?];
      [congruence | lia].
  - destruct H as [? | ?]; [now left | right; lia].
Qed.

Lemma escrever_descricoes_dentro col linha df g k row :
  nth_error df k = Some row ->
  escrever_descricoes col linha df g !! (col, linha + Z.of_nat k)
  = Some (PyStr.take 50 (Descricao row)).
Proof.
  revert linha g k. induction df as [|r0 df IH]; intros linha g k H;
    [destruct k; discriminate |].
  cbn [escrever_descricoes]. destruct k as [|k]; simpl in H.
  - injection H as ->. rewrite escrever_descricoes_fora by (right; lia).
    rewrite Z.add_0_r. apply lookup_insert_eq.
  - replace (linha + Z.of_nat (S k)) with (linha + 1 + Z.of_nat k) by lia.
    now apply IH.
Qed.

Definition tres_registros : list Transacao :=
  [ {| Data := "05/01/2024"; Descricao := "Salario"; Valor := 500000 |};
    {| Data := "06/01/2024"; Descricao := "Pix recebida"; Valor := 12000 |};
    {| Data := "07/01/2024"; Descricao := "Reembolso"; Valor := 3000 |} ].

(** The batch of three on a section of two rows: two rows written, the
    third record dropped, no error. *)
Example insercao_de_tres_em_duas_linhas :
  let s := {| aba_mes := ∅; historico := None; falhas := [] |} in
  let '(r, s') := _inserir_generico tres_registros "B" 10 11 s in
  r = Ok tt /\
  map_to_list (aba_mes s') = [("B", 11, "Pix recebida"); ("B", 10, "Salario")].
Proof. vm_compute. split; reflexivity. Qed.

End Secao.

(** ** The search for the next empty row *)

Section ProximaLinha.
Import Gspread IntegradorSheets.

Definition linha_resposta (v : string) : list string :=
  if String.eqb v "" then [] else [v].

Lemma linha_vazia_resposta (v : string) :
  linha_vazia (linha_resposta v) = String.eqb v "".
Proof.
  unfold linha_resposta. destruct (String.eqb v "") eqn:E; simpl; auto.
Qed.

Lemma linhas_da_coluna_eq g col inicio fim :
  linhas_da_coluna g col inicio fim
  = map (fun k => linha_resposta (celula g col (inicio + Z.of_nat k)))
        (seq 0 (Z.to_nat (fim - inicio + 1))).
Proof. reflexivity. Qed.

(** On a response with one entry per row of the range, the loop finds
    the first empty row, and none exactly when every row is occupied. *)
Lemma percorrer_resposta_completa g col inicio (a n : nat) :
  match percorrer
          (map (fun k => linha_resposta (celula g col (inicio + Z.of_nat k)))
               (seq a n)) (inicio + Z.of_nat a) with
  | Some l =>
      inicio + Z.of_nat a <= l < inicio + Z.of_nat (a + n) /\
      celula g col l = "" /\
      (forall l', inicio + Z.of_nat a <= l' < l -> celula g col l' <> "")
  | None =>
      forall l, inicio + Z.of_nat a <= l < inicio + Z.of_nat (a + n) ->
                celula g col l <> ""
  end.
Proof.
  revert a. induction n as [|n IH]; intros a; simpl.
  - intros l Hl. lia.
  - rewrite linha_vazia_resposta.
    destruct (String.eqb_spec (celula g col (inicio + Z.of_nat a)) "") as [E | E].
    + split; [lia |]. split; [exact E |]. intros l' Hl. lia.
    + specialize (IH (S a)).
      replace (inicio + Z.of_nat a + 1) with (inicio + Z.of_nat (S a)) by lia.
      destruct (percorrer _ _) as [l|].
      * destruct IH as [H1 [H2 H3]]. split; [lia |]. split; [exact H2 |].
        intros l' Hl.
        destruct (Z.eq_dec l' (inicio + Z.of_nat a)) as [-> | Hne];
          [exact E | apply H3; lia].
      * intros l Hl.
        destruct (Z.eq_dec l (inicio + Z.of_nat a)) as [-> | Hne];
          [exact E | apply IH; lia].
Qed.

Lemma aparar_vazias (ls : list (list string)) :
  Forall (fun r => r = []) ls -> aparar ls = [].
Proof.
  induction 1 as [|r ls Hr _ IH]; simpl; [reflexivity |].
  now rewrite IH, Hr.
Qed.

Lemma aparar_ocupadas_app (ocupadas resto : list (list string)) :
  Forall (fun r => r <> []) ocupadas -> aparar resto = [] ->
  aparar (ocupadas ++ resto) = ocupadas.
Proof.
  intros H Hr. induction H as [|r ls Hne _ IH]; simpl; [exact Hr |].
  rewrite IH. destruct ls, r; congruence.
Qed.

Lemma percorrer_ocupadas (ls : list (list string)) (l0 : Z) :
  Forall (fun r => linha_vazia r = false) ls -> percorrer ls l0 = None.
Proof.
  intros H. revert l0. induction H as [|r ls Hr _ IH]; intros l0; simpl;
    [reflexivity |].
  now rewrite Hr.
Qed.

(** When the rows [inicio..k] of the range are occupied and the rows
    after [k] are empty, the search answers [None]: the response stops at
    row [k], every entry of it is occupied, and the loop runs off its
    end.  For [k = fim] the section is full indeed; for [k < fim] row
    [k + 1] is free and is not found. *)
Lemma proxima_linha_prefixo_ocupado g col inicio fim k :
  inicio <= k <= fim ->
  (forall l, inicio <= l <= k -> celula g col l <> "") ->
  (forall l, k < l <= fim -> celula g col l = "") ->
  proxima_linha g col inicio fim = None.
Proof.
  intros Hk Hocc Hemp. unfold proxima_linha. rewrite linhas_da_coluna_eq.
  set (f := fun k0 : nat => linha_resposta (celula g col (inicio + Z.of_nat k0))).
  set (m := Z.to_nat (k - inicio + 1)).
  replace (Z.to_nat (fim - inicio + 1)) with (m + Z.to_nat (fim - k))%nat
    by (subst m; lia).
  rewrite seq_app, map_app. simpl (0 + m)%nat.
  assert (Ho : Forall (fun r => linha_vazia r = false) (map f (seq 0 m))).
  { apply List.Forall_forall. intros r Hr. apply in_map_iff in Hr as [i [<- Hi]].
    apply in_seq in Hi. subst f. cbv beta. rewrite linha_vazia_resposta.
    apply String.eqb_neq, Hocc. subst m. lia. }
  rewrite aparar_ocupadas_app.
  - destruct (map f (seq 0 m)) eqn:E.
    + exfalso. assert (List.length (map f (seq 0 m)) = m) as L
        by (now rewrite length_map, length_seq).
      rewrite E in L. simpl in L. subst m. lia.
    + cbv iota. now apply percorrer_ocupadas.
  - eapply List.Forall_impl; [| exact Ho]. intros r Hr ->. discriminate Hr.
  - apply aparar_vazias, List.Forall_forall. intros r Hr.
    apply in_map_iff in Hr as [i [<- Hi]]. apply in_seq in Hi.
    subst f. cbv beta. unfold linha_resposta. rewrite Hemp; [reflexivity |].
    subst m. lia.
Qed.

(** A range with no value at all answers its first row. *)
Lemma proxima_linha_secao_vazia g col inicio fim :
  (forall l, inicio <= l <= fim -> celula g col l = "") ->
  proxima_linha g col inicio fim = Some inicio.
Proof.
  intros H. unfold proxima_linha. rewrite aparar_vazias; [reflexivity |].
  rewrite linhas_da_coluna_eq. apply List.Forall_forall. intros r Hr.
  apply in_map_iff in Hr as [i [<- Hi]]. apply in_seq in Hi.
  unfold linha_resposta. rewrite H; [reflexivity | lia].
Qed.

Definition secao_com_tres : Planilha :=
  {| aba_mes := <[("B", 12) := "Reembolso"]>
                  (<[("B", 11) := "Pix recebida"]>
                     (<[("B", 10) := "Salario"]> ∅));
     historico := None; falhas := [] |}.

(** C4, at the input where the code departs from it: a range of five
    rows, B10 to B14, whose rows 1 to 3 are occupied.  The service leaves
    the two trailing empty rows out of the response, the loop meets three
    occupied rows, and the search answers [None] ("secao cheia") although
    the 4th row, B13, is free. *)
Theorem C4_tres_ocupadas_de_cinco :
  linhas_da_coluna (aba_mes secao_com_tres) "B" 10 14
    = [["Salario"]; ["Pix recebida"]; ["Reembolso"]; []; []] /\
  fst (aba_mes_get "B" 10 14 secao_com_tres)
    = Ok [["Salario"]; ["Pix recebida"]; ["Reembolso"]] /\
  celula (aba_mes secao_com_tres) "B" 13 = "" /\
  fst (_encontrar_proxima_linha_vazia "B" 10 14 secao_com_tres) = Ok None.
Proof. vm_compute. repeat split. Qed.

(** On a section whose occupied rows are its first rows, an insertion
    writes nothing and returns normally, whatever the batch: the search
    has answered [None]. *)
Lemma insercao_em_secao_com_prefixo_ocupado
      (df : list Transacao) col inicio fim k (s : Planilha) :
  falhas s = [] ->
  inicio <= k <= fim ->
  (forall l, inicio <= l <= k -> celula (aba_mes s) col l <> "") ->
  (forall l, k < l <= fim -> celula (aba_mes s) col l = "") ->
  _inserir_generico df col inicio fim s = (Ok tt, s).
Proof.
  intros H Hk Ho He.
  rewrite (inserir_generico_sem_falhas df col inicio fim s H).
  unfold apos_insercao.
  rewrite (proxima_linha_prefixo_ocupado _ _ _ _ k Hk Ho He).
  now destruct s.
Qed.

(** C3, at the input where the code departs from it: the range B10 to
    B14 with rows 1 to 3 occupied, and a batch of three records.  The
    claim has the batch written from the next free row, B13, up to B14,
    and its third record dropped; the search answers [None] as in C4, so
    the insertion writes no cell at all and returns normally, B13 and B14
    staying empty. *)
Theorem C3_lote_descartado_com_linhas_livres :
  celula (aba_mes secao_com_tres) "B" 13 = "" /\
  celula (aba_mes secao_com_tres) "B" 14 = "" /\
  List.length tres_registros = 3%nat /\
  _inserir_generico tres_registros "B" 10 14 secao_com_tres
  = (Ok tt, secao_com_tres).
Proof. vm_compute. repeat split. Qed.

End ProximaLinha.

(** ** The history ledger *)

Section Historico.
Import Gspread IntegradorSheets.

(** The hashes the ledger of [s] holds, in row order. *)
Definition hashes_registrados (s : Planilha) : list string :=
  hashes_da_tabela (default [] (historico s)).

(** The rows of the batch whose hash is not among [registrados]. *)
Definition sobreviventes (registrados : list string) (df : list Transacao)
  : list LinhaHash :=
  List.filter (fun r => negb (bool_decide (Hash r ∈ registrados))) (com_hash df).

Lemma sobreviventes_gset (registrados : list string) (df : list Transacao) :
  List.filter (fun r => negb (bool_decide
                           (Hash r ∈ (list_to_set registrados : gset string))))
         (com_hash df)
  = sobreviventes registrados df.
Proof.
  unfold sobreviventes. apply filter_ext. intros r. f_equal.
  apply bool_decide_ext. apply elem_of_list_to_set.
Qed.

Lemma sobrescrever_nil (dados : list (list string)) :
  sobrescrever dados [] = dados.
Proof.
  induction dados as [|d ds IH]; simpl; [reflexivity |].
  unfold sobrepor. simpl. now rewrite skipn_nil, app_nil_r, IH.
Qed.

(** Writing from the row after the last one appends. *)
Lemma escrever_em_fim (dados linhas : list (list string)) :
  escrever_em (List.length linhas) dados linhas = linhas ++ dados.
Proof.
  induction linhas as [|l ls IH]; simpl.
  - apply sobrescrever_nil.
  - destruct dados as [|d ds]; [now rewrite app_nil_r |].
    now rewrite IH.
Qed.

Lemma get_transacoes_sem_falhas (s : Planilha) :
  falhas s = [] ->
  _get_transacoes_existentes s =
    match historico s with
    | Some linhas => (Ok (list_to_set (hashes_da_tabela linhas)), s)
    | None => (Ok ∅, com_historico (Some [Config.CABECALHO_HISTORICO]) s)
    end.
Proof.
  destruct s as [g h f]. simpl. intros ->. destruct h; reflexivity.
Qed.

Lemma atualizar_sem_falhas agora (df : list LinhaHash) (s : Planilha) :
  falhas s = [] ->
  _atualizar_historico agora df s =
    (Ok tt,
     match historico s with
     | Some linhas =>
         com_historico (Some (linhas ++ map (linha_historico agora) df)) s
     | None => s
     end).
Proof.
  destruct s as [g h f]. simpl. intros ->. destruct h as [linhas|];
    [| reflexivity].
  unfold _atualizar_historico, tentar, bind, worksheet_historico,
    get_all_values, historico_update, bind, requisicao, com_historico.
  simpl. rewrite Nat.add_sub, escrever_em_fim. reflexivity.
Qed.

(** The history step never raises, and leaves the month's worksheet
    alone: it appends, or it gives up and keeps the ledger as it was. *)
Lemma atualizar_nunca_levanta agora (df : list LinhaHash) (s : Planilha) :
  exists s', _atualizar_historico agora df s = (Ok tt, s') /\
             aba_mes s' = aba_mes s /\
             (historico s' = historico s \/
              exists linhas,
                historico s = Some linhas /\
                historico s' = Some (linhas ++ map (linha_historico agora) df)).
Proof.
  destruct s as [g h f].
  unfold _atualizar_historico, tentar, bind, worksheet_historico,
    get_all_values, historico_update, bind, requisicao. simpl.
  destruct h as [linhas|];
    destruct f as [|[] [|[] [|[] f]]]; simpl;
    eexists; (split; [reflexivity |]); (split; [reflexivity |]); simpl;
    try (left; reflexivity);
    right; exists linhas; rewrite Nat.add_sub, escrever_em_fim; auto.
Qed.

(** The cells after the three insertions of [_processar_insercoes]. *)
Definition apos_processar (df : list LinhaHash)
           (g : gmap (string * Z) string) : gmap (string * Z) string :=
  let linhas := map transacao df in
  let g1 := apos_insercao
              (List.filter (fun r => String.eqb (tipo_de r) "Receita") linhas)
              Config.ENTRADAS_COL_DESCRICAO Config.ENTRADAS_INICIO_LINHA
              Config.ENTRADAS_FIM_LINHA g in
  let g2 := apos_insercao
              (List.filter (fun r => String.eqb (tipo_de r) "Despesa"
                                && eh_fixo_de r) linhas)
              Config.FIXOS_COL_DESCRICAO Config.FIXOS_INICIO_LINHA
              Config.FIXOS_FIM_LINHA g1 in
  apos_insercao
    (List.filter (fun r => String.eqb (tipo_de r) "Despesa"
                      && negb (eh_fixo_de r)) linhas)
    Config.VARIAVEIS_COL_DESCRICAO Config.VARIAVEIS_INICIO_LINHA
    Config.VARIAVEIS_FIM_LINHA g2.

Lemma processar_sem_falhas (df : list LinhaHash) (s : Planilha) :
  falhas s = [] ->
  _processar_insercoes df s
  = (Ok tt, com_aba_mes (apos_processar df (aba_mes s)) s).
Proof.
  intros H.
  unfold _processar_insercoes, _inserir_entradas, _inserir_gastos_fixos,
    _inserir_gastos_variaveis, bind, apos_processar.
  rewrite inserir_generico_sem_falhas by exact H.
  rewrite inserir_generico_sem_falhas by exact H.
  rewrite inserir_generico_sem_falhas by exact H.
  reflexivity.
Qed.

(** A whole run when no request fails. *)
Lemma importar_sem_falhas agora (df : list Transacao) (s : Planilha) :
  falhas s = [] ->
  let linhas := default [Config.CABECALHO_HISTORICO] (historico s) in
  let novas := sobreviventes (hashes_registrados s) df in
  importar_transacoes agora df s =
    (Ok tt,
     match novas with
     | [] => com_historico (Some linhas) s
     | _ => {| aba_mes := apos_processar novas (aba_mes s);
               historico := Some (linhas ++ map (linha_historico agora) novas);
               falhas := [] |}
     end).
Proof.
  destruct s as [g h f]. simpl. intros ->.
  unfold importar_transacoes, bind, hashes_registrados.
  rewrite get_transacoes_sem_falhas by reflexivity. simpl.
  destruct h as [linhas|]; simpl.
  - rewrite sobreviventes_gset.
    destruct (sobreviventes (hashes_da_tabela linhas) df) as [|n ns];
      [reflexivity |].
    rewrite processar_sem_falhas by reflexivity.
    rewrite atualizar_sem_falhas by reflexivity. reflexivity.
  - change (∅ : gset string) with (list_to_set [] : gset string).
    rewrite sobreviventes_gset.
    destruct (sobreviventes [] df) as [|n ns]; [reflexivity |].
    rewrite processar_sem_falhas by reflexivity.
    rewrite atualizar_sem_falhas by reflexivity. reflexivity.
Qed.

End Historico.

(** ** Deduplication across runs *)

Section Deduplicacao.
Import Gspread IntegradorSheets Hashlib.

(** The ledger is absent, or its header has [Hash] as first column, the
    column in which [_atualizar_historico] writes the hashes. *)
Definition historico_bem_formado (s : Planilha) : Prop :=
  match historico s with
  | None => True
  | Some linhas => exists colunas dados, linhas = ("Hash" :: colunas) :: dados
  end.

(** Number of rows of the ledger column that hold [h]. *)
Definition contar (h : string) (l : list string) : nat :=
  List.length (List.filter (String.eqb h) l).

Lemma contar_app h (l1 l2 : list string) :
  contar h (l1 ++ l2) = (contar h l1 + contar h l2)%nat.
Proof. unfold contar. now rewrite List.filter_app, length_app. Qed.

Lemma filter_vazio {A} (f : A -> bool) (l : list A) :
  (forall x, In x l -> f x = false) -> List.filter f l = [].
Proof.
  induction l as [|x l IH]; simpl; [reflexivity |]. intros H.
  rewrite (H x) by now left. apply IH. intros y Hy. apply H. now right.
Qed.

Lemma com_hash_In (df : list Transacao) (r : LinhaHash) :
  In r (com_hash df) <->
  exists row, In row df /\
              r = {| transacao := row; Hash := _gerar_hash_transacao row |}.
Proof.
  unfold com_hash. rewrite in_map_iff. split; intros [row [H1 H2]]; eauto.
Qed.

Lemma sobreviventes_In reg (df : list Transacao) (r : LinhaHash) :
  In r (sobreviventes reg df) <-> In r (com_hash df) /\ ~ In (Hash r) reg.
Proof.
  unfold sobreviventes. rewrite filter_In, negb_true_iff, bool_decide_eq_false.
  now rewrite list_elem_of_In.
Qed.

Lemma sobreviventes_hash_nonempty reg (df : list Transacao) :
  List.Forall (fun r => Hash r <> "") (sobreviventes reg df).
Proof.
  apply List.Forall_forall. intros r Hr.
  apply sobreviventes_In in Hr as [Hr _].
  apply com_hash_In in Hr as [row [_ ->]]. apply md5_hexdigest_nonempty.
Qed.

Lemma contar_sobreviventes reg (df : list Transacao) h :
  contar h (map Hash (sobreviventes reg df))
  = if bool_decide (h ∈ reg) then O
    else contar h (map _gerar_hash_transacao df).
Proof.
  unfold sobreviventes, contar.
  induction df as [|row df IH]; cbn [com_hash map List.filter Hash].
  - now destruct (bool_decide _).
  - destruct (bool_decide (_gerar_hash_transacao row ∈ reg)) eqn:E1;
      cbn [negb map List.filter Hash];
      destruct (String.eqb_spec h (_gerar_hash_transacao row)) as [-> | Hne];
      cbn [List.length]; fold (com_hash df); rewrite ?IH, ?E1; reflexivity.
Qed.

(** The state a fault-free run leaves. *)
Definition apos_importar agora (df : list Transacao) (s : Planilha)
  : Planilha :=
  let linhas := default [Config.CABECALHO_HISTORICO] (historico s) in
  match sobreviventes (hashes_registrados s) df with
  | [] => com_historico (Some linhas) s
  | novas => {| aba_mes := apos_processar novas (aba_mes s);
                historico := Some (linhas ++ map (linha_historico agora) novas);
                falhas := [] |}
  end.

End Deduplicacao.

Section ImportacaoClaims.
Import Gspread IntegradorSheets Hashlib.

Lemma importar_apos agora (df : list Transacao) (s : Planilha) :
  falhas s = [] ->
  importar_transacoes agora df s = (Ok tt, apos_importar agora df s).
Proof.
  intros H. rewrite (importar_sem_falhas agora df s H). unfold apos_importar.
  destruct (sobreviventes (hashes_registrados s) df); reflexivity.
Qed.

Lemma apos_importar_estado agora (df : list Transacao) (s : Planilha) :
  falhas s = [] ->
  falhas (apos_importar agora df s) = [] /\
  exists linhas, historico (apos_importar agora df s) = Some linhas.
Proof.
  intros H. unfold apos_importar.
  destruct (sobreviventes (hashes_registrados s) df); simpl; eauto.
Qed.

Definition uber_trip : Transacao :=
  {| Data := "05/01/2024"; Descricao := "UBER *TRIP"; Valor := -2350 |}.

Definition planilha_nova : Planilha :=
  {| aba_mes := ∅; historico := None; falhas := [] |}.

(** C1 as stated fails on a batch that holds the same record twice (two
    equal purchases on one day): neither copy is in the ledger when the
    first run filters, both are appended, and the ledger holds that hash
    twice after the two runs. *)
Lemma C1_lote_com_registro_repetido :
  let '(r1, s1) := importar_transacoes "05/01/2024 10:00:00"
                     [uber_trip; uber_trip] planilha_nova in
  let '(r2, s2) := importar_transacoes "06/01/2024 10:00:00"
                     [uber_trip; uber_trip] s1 in
  r1 = Ok tt /\ r2 = Ok tt /\
  contar (_gerar_hash_transacao uber_trip) (hashes_registrados s2) = 2%nat /\
  contar (_gerar_hash_transacao uber_trip) (hashes_registrados s2) <> 1%nat.
Proof. vm_compute. repeat split. discriminate. Qed.

End ImportacaoClaims.

Section HistoricoClaims.
Import Gspread IntegradorSheets Hashlib.

(** C2: when no request fails, the run returns normally and the ledger
    ends with one entry, carrying the import timestamp [agora], for
    every record that passed the deduplication, in batch order, whatever
    the insertions wrote or dropped: the entry of a record does not
    depend on the row of the record having been written. *)
Theorem C2_historico_registra_todos_os_sobreviventes
        (agora : string) (df : list Transacao) (s : Planilha) :
  df <> [] -> falhas s = [] ->
  let '(r, s') := importar_transacoes agora df s in
  let novas := sobreviventes (hashes_registrados s) df in
  r = Ok tt /\
  (novas <> [] ->
   historico s'
   = Some (default [Config.CABECALHO_HISTORICO] (historico s)
             ++ map (linha_historico agora) novas)) /\
  (forall row,
      In row df -> ~ In (_gerar_hash_transacao row) (hashes_registrados s) ->
      exists linhas,
        historico s' = Some linhas /\
        In [ _gerar_hash_transacao row; Data row; Descricao row;
             Texto.str_valor (Valor row); agora ] linhas).
Proof.
  intros _ H. rewrite (importar_apos agora df s H). cbv beta iota zeta.
  assert (L : sobreviventes (hashes_registrados s) df <> [] ->
              historico (apos_importar agora df s)
              = Some (default [Config.CABECALHO_HISTORICO] (historico s)
                        ++ map (linha_historico agora)
                               (sobreviventes (hashes_registrados s) df))).
  { unfold apos_importar.
    destruct (sobreviventes (hashes_registrados s) df); [congruence |].
    reflexivity. }
  split; [reflexivity |]. split; [exact L |].
  intros row Hrow Hout.
  assert (N : In {| transacao := row; Hash := _gerar_hash_transacao row |}
                 (sobreviventes (hashes_registrados s) df)).
  { apply sobreviventes_In. split; [| exact Hout]. apply com_hash_In. eauto. }
  eexists. split.
  - apply L. intros E. rewrite E in N. exact N.
  - apply in_or_app. right.
    exact (in_map (linha_historico agora) _ _ N).
Qed.

(** The section of incomes, B10 to B19, with every row occupied. *)
Definition entradas_cheias : Planilha :=
  {| aba_mes :=
       list_to_map
         (map (fun k => (("B", 10 + Z.of_nat k), "Entrada anterior"))
              (seq 0 10));
     historico := None; falhas := [] |}.

Definition salario : Transacao :=
  {| Data := "05/01/2024"; Descricao := "Salario"; Valor := 500000 |}.

Lemma C2_historico_registra_todos_os_sobreviventes_witness :
  let '(r, s') := importar_transacoes "05/01/2024 10:00:00" [salario]
                    entradas_cheias in
  r = Ok tt /\
  exists linhas,
    historico s' = Some linhas /\
    In [ _gerar_hash_transacao salario; "05/01/2024"; "Salario"; "5000.0";
         "05/01/2024 10:00:00" ] linhas.
Proof.
  pose proof (C2_historico_registra_todos_os_sobreviventes
                "05/01/2024 10:00:00" [salario] entradas_cheias) as T.
  destruct (importar_transacoes "05/01/2024 10:00:00" [salario]
              entradas_cheias) as [r s'].
  destruct T as [T1 [_ T3]].
  - discriminate.
  - reflexivity.
  - split; [exact T1 |]. apply (T3 salario).
    + now left.
    + simpl. intros F. exact F.
Defined.

(** The same run, evaluated: the income finds its section full and is
    written nowhere, and the ledger records it as imported. *)
Example registrado_sem_ter_sido_escrito :
  let '(r, s') := importar_transacoes "05/01/2024 10:00:00" [salario]
                    entradas_cheias in
  r = Ok tt /\
  aba_mes s' = aba_mes entradas_cheias /\
  hashes_registrados s' = [_gerar_hash_transacao salario].
Proof. vm_compute. repeat split. Qed.

End HistoricoClaims.

Section ErrosClaims.
Import Gspread IntegradorSheets Hashlib.

Lemma indice_coluna_ausente (nome : string) (colunas : list string) :
  ~ In nome colunas -> indice_coluna nome colunas = None.
Proof.
  induction colunas as [|c r IH]; simpl; [reflexivity |]. intros H.
  destruct (String.eqb_spec c nome) as [-> | _]; [exfalso; auto |].
  rewrite IH; [reflexivity | auto].
Qed.

(** C6, as the code has it.  A missing ledger is created with the header
    [Hash, Data, Descricao, Valor, Data_Importacao] and the query answers
    the empty set; a request that fails, while opening, reading or
    creating the ledger, propagates as [APIError]; an existing ledger is
    left as it is, and when its first row names no column [Hash] (or it
    has no row at all) the query answers the empty set without any
    error. *)
Theorem C6_consulta_do_historico (s : Planilha) :
  let '(r, s') := _get_transacoes_existentes s in
  match historico s with
  | None =>
      if existsb id (firstn 3 (falhas s))
      then r = Raise APIError
      else r = Ok ∅ /\ historico s' = Some [Config.CABECALHO_HISTORICO]
  | Some linhas =>
      historico s' = Some linhas /\
      if existsb id (firstn 2 (falhas s))
      then r = Raise APIError
      else r = Ok (list_to_set (hashes_da_tabela linhas)) /\
           (linhas = [] -> r = Ok ∅) /\
           (forall colunas dados,
               linhas = colunas :: dados -> ~ In "Hash" colunas -> r = Ok ∅)
  end.
Proof.
  destruct s as [g h f].
  unfold _get_transacoes_existentes, tentar, bind, worksheet_historico,
    get_all_values, _criar_aba_historico, add_worksheet_historico,
    historico_update, bind, requisicao.
  destruct h as [linhas|]; destruct f as [|[] [|[] [|[] f]]]; simpl;
    repeat split; try reflexivity;
    try (intros ->; reflexivity);
    intros colunas dados -> Hn; simpl;
    rewrite (indice_coluna_ausente _ _ Hn); reflexivity.
Qed.

(** A ledger whose header lost its [Hash] column. *)
Definition historico_sem_coluna_hash : Planilha :=
  {| aba_mes := ∅;
     historico := Some [ ["Data"; "Descricao"; "Valor"];
                         ["05/01/2024"; "UBER *TRIP"; "-23.5"] ];
     falhas := [] |}.

Lemma C6_consulta_do_historico_witness :
  let '(r, s') := _get_transacoes_existentes historico_sem_coluna_hash in
  r = Ok ∅.
Proof.
  pose proof (C6_consulta_do_historico historico_sem_coluna_hash) as T.
  destruct (_get_transacoes_existentes historico_sem_coluna_hash) as [r s'].
  simpl in T. destruct T as [_ [_ [_ T]]].
  apply (T ["Data"; "Descricao"; "Valor"]
           [["05/01/2024"; "UBER *TRIP"; "-23.5"]]).
  - reflexivity.
  - simpl. intros [F | [F | [F | []]]]; discriminate F.
Defined.

(** C6 as stated fails: the malformed table is read as an empty set of
    hashes and nothing is raised. *)
Lemma C6_tabela_malformada_passa_por_vazia :
  _get_transacoes_existentes historico_sem_coluna_hash
  = (Ok ∅, historico_sem_coluna_hash) /\
  forall e, fst (_get_transacoes_existentes historico_sem_coluna_hash)
            <> Raise e.
Proof. split; [reflexivity | intros e; discriminate]. Qed.

Definition mercado : Transacao :=
  {| Data := "06/01/2024"; Descricao := "Mercado Central"; Valor := -8990 |}.

(** A ledger with its header only, and a service that fails the [n]-th
    request to come. *)
Definition falha_na_requisicao (n : nat) : Planilha :=
  {| aba_mes := ∅; historico := Some [Config.CABECALHO_HISTORICO];
     falhas := repeat false (n - 1) ++ [true] |}.

(** C7 as stated fails for the history step.  One variable expense; the
    9th request, the append to the ledger, fails: the run returns
    normally, the row is written, and the ledger has no entry for it. *)
Lemma C7_falha_do_historico_nao_propaga :
  let '(r, s') := importar_transacoes "05/01/2024 10:00:00" [uber_trip]
                    (falha_na_requisicao 9) in
  r = Ok tt /\ (forall e, r <> Raise e) /\
  aba_mes s' !! ("B", 25) = Some "UBER *TRIP" /\
  historico s' = Some [Config.CABECALHO_HISTORICO] /\
  falhas s' = [].
Proof.
  vm_compute. repeat split. intros e F. discriminate F.
Qed.

(** With the failure one request later, the same run records the
    entry: the 9th request is the append. *)
Example nona_requisicao_e_o_historico :
  let '(r, s') := importar_transacoes "05/01/2024 10:00:00" [uber_trip]
                    (falha_na_requisicao 10) in
  r = Ok tt /\
  historico s'
  = Some [ Config.CABECALHO_HISTORICO;
           [ "d6a5568b1152680043e71ce062c27c5c"; "05/01/2024"; "UBER *TRIP";
             "-23.5"; "05/01/2024 10:00:00" ] ] /\
  falhas s' = [true].
Proof. vm_compute. repeat split. Qed.

End ErrosClaims.

(** * Further properties of the classifier *)

Section ClassificadorMais.
Import PyStr CategorizadorIA IntegradorSheets.

Lemma lower_ascii_idem (c : ascii) : lower_ascii (lower_ascii c) = lower_ascii c.
Proof. destruct c as [[] [] [] [] [] [] [] []]; reflexivity. Qed.

Lemma lower_idem (s : string) : lower (lower s) = lower s.
Proof.
  induction s as [|c s IH]; simpl; [reflexivity |].
  now rewrite lower_ascii_idem, IH.
Qed.

Lemma str_in_trans (a b s : string) :
  str_in a b = true -> str_in b s = true -> str_in a s = true.
Proof.
  rewrite !str_in_spec. intros [x [y ->]] [u [v ->]].
  exists (String.append u x), (String.append y v).
  now rewrite !append_assoc.
Qed.

Lemma primeira_categoria_app_Some t1 t2 desc c :
  primeira_categoria t1 desc = Some c ->
  primeira_categoria (t1 ++ t2) desc = Some c.
Proof.
  induction t1 as [|[c' ps] t IH]; simpl; [discriminate |].
  destruct (existsb _ ps); [easy | exact IH].
Qed.

(** X1: the shape of every answer of [categorizar].  It is the income
    triple exactly when the amount is positive or an income marker occurs
    in the lowercased description, whatever else the description holds;
    otherwise it is an expense whose category is one of the twelve
    declared ones or the fallback, never "Entrada". *)
Theorem categorizar_bem_formado (descricao : string) (valor : Z) :
  let entrada := (0 <? valor) || str_in "recebida" (lower descricao)
                 || str_in "salario" (lower descricao) in
  (entrada = true /\
   categorizar descricao valor = ("Entrada", "Receita", false)) \/
  (entrada = false /\
   exists categoria eh_fixo,
     categorizar descricao valor = (categoria, "Despesa", eh_fixo) /\
     In categoria ("Necessidade" :: map fst MAPEAMENTO) /\
     categoria <> "Entrada").
Proof.
  unfold categorizar. cbv zeta.
  destruct ((0 <? valor) || str_in "recebida" (lower descricao)
            || str_in "salario" (lower descricao)) eqn:E.
  - left. now split.
  - right. split; [reflexivity |].
    destruct (primeira_categoria MAPEAMENTO (lower descricao)) as [c|] eqn:P.
    + exists c, (calc_eh_fixo (limpar (lower descricao))).
      split; [reflexivity |].
      apply primeira_categoria_In in P. split; [now right |].
      intros ->. vm_compute in P. intuition discriminate.
    + exists "Necessidade", (calc_eh_fixo (limpar (lower descricao))).
      split; [reflexivity |]. split; [now left | discriminate].
Qed.

(** X2: letter case never matters: two descriptions with the same
    lowercase form get the same classification and the same payment
    method, and a description is classified as its lowercase form is. *)
Theorem classificacao_ignora_caixa (d1 d2 : string) (valor : Z) :
  lower d1 = lower d2 ->
  categorizar d1 valor = categorizar d2 valor /\
  identificar_forma_pagamento d1 = identificar_forma_pagamento d2 /\
  categorizar (lower d1) valor = categorizar d1 valor.
Proof.
  intros H. unfold categorizar, identificar_forma_pagamento.
  rewrite lower_idem, H. repeat split.
Qed.

Lemma classificacao_ignora_caixa_witness :
  categorizar "UBER *TRIP" (-2350) = categorizar "Uber *Trip" (-2350) /\
  identificar_forma_pagamento "UBER *TRIP"
  = identificar_forma_pagamento "Uber *Trip" /\
  categorizar (lower "UBER *TRIP") (-2350) = categorizar "UBER *TRIP" (-2350).
Proof.
  apply (classificacao_ignora_caixa "UBER *TRIP" "Uber *Trip" (-2350)).
  reflexivity.
Defined.

Lemma tres_filtros {A} (f g h : A -> bool) (l : list A) :
  (forall x, In x l ->
             (f x, g x, h x) = (true, false, false) \/
             (f x, g x, h x) = (false, true, false) \/
             (f x, g x, h x) = (false, false, true)) ->
  (List.length (List.filter f l) + List.length (List.filter g l)
   + List.length (List.filter h l))%nat = List.length l.
Proof.
  induction l as [|x l IH]; intros H; [reflexivity |]. simpl.
  specialize (IH (fun y Hy => H y (or_intror Hy))).
  destruct (H x (or_introl eq_refl)) as [E | [E | E]];
    injection E as -> -> ->; simpl; lia.
Qed.

(** X3: the three frames [_processar_insercoes] hands to the three
    sections split the batch: every record is in exactly one of them, and
    their sizes add up to the size of the batch. *)
Theorem secoes_particionam_o_lote (linhas : list Transacao) :
  let receita := fun r => String.eqb (tipo_de r) "Receita" in
  let fixo := fun r => String.eqb (tipo_de r) "Despesa" && eh_fixo_de r in
  let variavel :=
    fun r => String.eqb (tipo_de r) "Despesa" && negb (eh_fixo_de r) in
  (forall r,
      (receita r, fixo r, variavel r) = (true, false, false) \/
      (receita r, fixo r, variavel r) = (false, true, false) \/
      (receita r, fixo r, variavel r) = (false, false, true)) /\
  (List.length (List.filter receita linhas)
   + List.length (List.filter fixo linhas)
   + List.length (List.filter variavel linhas))%nat = List.length linhas.
Proof.
  intros receita fixo variavel.
  assert (P : forall r,
      (receita r, fixo r, variavel r) = (true, false, false) \/
      (receita r, fixo r, variavel r) = (false, true, false) \/
      (receita r, fixo r, variavel r) = (false, false, true)).
  { intros r. subst receita fixo variavel. cbv beta.
    unfold tipo_de, eh_fixo_de, categorizar. cbv zeta.
    destruct ((0 <? Valor r) || str_in "recebida" (lower (Descricao r))
              || str_in "salario" (lower (Descricao r))); [now left |].
    destruct (primeira_categoria MAPEAMENTO (lower (Descricao r)));
      destruct (calc_eh_fixo (limpar (lower (Descricao r)))); simpl; auto. }
  split; [exact P |]. apply tres_filtros. intros x _. apply P.
Qed.

(** X4: two keywords of the table can never decide the category, because
    a keyword of a category declared earlier occurs inside them.  An
    expense with "uber eats" in its description is "Transporte" (by
    "uber"), never "Delivery"; an expense with "barbeiro" is "Transporte",
    "Delivery" or "Lazer" (by "bar"), never "Beleza". *)
Theorem palavras_encobertas (descricao : string) (valor : Z) :
  valor <= 0 ->
  str_in "recebida" (lower descricao) = false ->
  str_in "salario" (lower descricao) = false ->
  (str_in "uber eats" (lower descricao) = true ->
   fst (categorizar descricao valor) = ("Transporte", "Despesa")) /\
  (str_in "barbeiro" (lower descricao) = true ->
   exists categoria,
     fst (categorizar descricao valor) = (categoria, "Despesa") /\
     In categoria ["Transporte"; "Delivery"; "Lazer"]).
Proof.
  intros Hv H1 H2. rewrite (categorizar_despesa _ _ Hv H1 H2). split.
  - intros H.
    assert (U : str_in "uber" (lower descricao) = true)
      by (apply (str_in_trans "uber" "uber eats"); [reflexivity | exact H]).
    unfold MAPEAMENTO.
    rewrite (primeira_categoria_hit _ _ _ "uber"); [reflexivity | now left | exact U].
  - intros H.
    assert (B : str_in "bar" (lower descricao) = true)
      by (apply (str_in_trans "bar" "barbeiro"); [reflexivity | exact H]).
    destruct (primeira_categoria (firstn 3 MAPEAMENTO) (lower descricao))
      as [c|] eqn:P.
    + exists c. split.
      * change MAPEAMENTO with (firstn 3 MAPEAMENTO ++ skipn 3 MAPEAMENTO).
        now rewrite (primeira_categoria_app_Some _ _ _ _ P).
      * apply primeira_categoria_In in P. exact P.
    + exfalso. apply primeira_categoria_None in P.
      rewrite (P "Lazer" ["cinema"; "netflix"; "spotify"; "prime"; "disney";
                          "restaurante"; "bar"; "show"] "bar") in B.
      * discriminate.
      * simpl. do 2 right. now left.
      * simpl. do 6 right. now left.
Qed.

Lemma palavras_encobertas_witness :
  fst (categorizar "Uber Eats pedido" (-3500)) = ("Transporte", "Despesa") /\
  exists categoria,
    fst (categorizar "Barbeiro do Ze" (-4000)) = (categoria, "Despesa") /\
    In categoria ["Transporte"; "Delivery"; "Lazer"].
Proof.
  split.
  - apply (palavras_encobertas "Uber Eats pedido" (-3500));
      [lia | reflexivity | reflexivity | reflexivity].
  - apply (palavras_encobertas "Barbeiro do Ze" (-4000));
      [lia | reflexivity | reflexivity | reflexivity].
Defined.

(** X5: the fixed-expense test looks for its keywords anywhere in the
    description, inside longer words too: every expense with "gasolina" in
    its description is a fixed expense, "gas" being a fixed keyword, and
    its category is "Transporte". *)
Theorem gasolina_e_gasto_fixo (descricao : string) (valor : Z) :
  valor <= 0 ->
  str_in "recebida" (lower descricao) = false ->
  str_in "salario" (lower descricao) = false ->
  str_in "gasolina" (lower descricao) = true ->
  categorizar descricao valor = ("Transporte", "Despesa", true).
Proof.
  intros Hv H1 H2 H. rewrite (categorizar_despesa _ _ Hv H1 H2).
  assert (G : str_in "gas" (lower descricao) = true)
    by (apply (str_in_trans "gas" "gasolina"); [reflexivity | exact H]).
  assert (F : calc_eh_fixo (limpar (lower descricao)) = true).
  { unfold calc_eh_fixo. apply existsb_exists. exists "gas". split.
    - unfold GASTOS_FIXOS_KEYWORDS. do 5 right. now left.
    - change (limpar "gas") with "gas". now apply limpar_keeps. }
  rewrite F. unfold MAPEAMENTO.
  rewrite (primeira_categoria_hit _ _ _ "gasolina");
    [reflexivity | do 3 right; now left | exact H].
Qed.

Lemma gasolina_e_gasto_fixo_witness :
  categorizar "Posto Shell Gasolina" (-20000) = ("Transporte", "Despesa", true).
Proof.
  apply (gasolina_e_gasto_fixo "Posto Shell Gasolina" (-20000));
    [lia | reflexivity | reflexivity | reflexivity].
Defined.

End ClassificadorMais.

(** * Further properties of the hash *)

Section HashMais.
Import PyStr Hashlib IntegradorSheets.

Definition HEX : string := "0123456789abcdef".

(** Every character of [s] is one of [alfabeto]. *)
Fixpoint so_caracteres (alfabeto s : string) : bool :=
  match s with
  | EmptyString => true
  | String c t =>
      existsb (Ascii.eqb c) (list_ascii_of_string alfabeto)
      && so_caracteres alfabeto t
  end.

Lemma bytes_le_length (n : nat) (x : Z) : List.length (bytes_le n x) = n.
Proof.
  revert x. induction n as [|n IH]; intros x; simpl; [reflexivity |].
  now rewrite IH.
Qed.

Lemma bytes_le_range (n : nat) (x : Z) :
  List.Forall (fun b => 0 <= b < 256) (bytes_le n x).
Proof.
  revert x. induction n as [|n IH]; intros x; simpl; constructor.
  - apply Z.mod_pos_bound. lia.
  - apply IH.
Qed.

Lemma hex_digit_HEX (n : Z) :
  0 <= n < 16 ->
  existsb (Ascii.eqb (hex_digit n)) (list_ascii_of_string HEX) = true.
Proof.
  intros H.
  assert (E : In n (map Z.of_nat (seq 0 16))).
  { apply in_map_iff. exists (Z.to_nat n). split; [lia |].
    apply in_seq. lia. }
  assert (T : forallb (fun k => existsb (Ascii.eqb (hex_digit k))
                                        (list_ascii_of_string HEX))
                      (map Z.of_nat (seq 0 16)) = true)
    by (vm_compute; reflexivity).
  rewrite forallb_forall in T. exact (T n E).
Qed.

Lemma hex_formato (bs : list Z) :
  List.Forall (fun b => 0 <= b < 256) bs ->
  String.length (hex bs) = (2 * List.length bs)%nat /\
  so_caracteres HEX (hex bs) = true.
Proof.
  induction 1 as [|b bs Hb _ [IH1 IH2]]; [now split |].
  cbn [hex String.length List.length so_caracteres]. split; [lia |].
  rewrite IH2, !hex_digit_HEX; [reflexivity | |].
  - apply Z.mod_pos_bound. lia.
  - split; [apply Z.div_pos; lia | apply Z.div_lt_upper_bound; lia].
Qed.

(** X6: the hash of any record is a text of exactly 32 characters, all
    of them among 0-9 and a-f.  It is therefore never an empty cell for
    the ledger's [dropna], and never the header name [Hash]. *)
Theorem hash_tem_32_caracteres_hex (row : Transacao) :
  String.length (_gerar_hash_transacao row) = 32%nat /\
  so_caracteres HEX (_gerar_hash_transacao row) = true /\
  _gerar_hash_transacao row <> "" /\
  _gerar_hash_transacao row <> "Hash".
Proof.
  unfold _gerar_hash_transacao, md5_hexdigest, digest. cbv zeta.
  set (st := fold_left bloco _ inicial).
  destruct (hex_formato (bytes_le 4 (rA st) ++ bytes_le 4 (rB st) ++
                         bytes_le 4 (rC st) ++ bytes_le 4 (rD st)))
    as [L C].
  { repeat (apply Forall_app; split); apply bytes_le_range. }
  rewrite !length_app, !bytes_le_length in L.
  split; [exact L |]. split; [exact C |].
  split; intros E; rewrite E in L; discriminate L.
Qed.

End HashMais.

(** * Further properties of the search and of the insertion *)

Section BuscaMais.
Import Gspread IntegradorSheets.

Lemma encontrar_casos col inicio fim (s : Planilha) :
  (exists s', _encontrar_proxima_linha_vazia col inicio fim s
              = (Raise APIError, s')) \/
  (exists s', _encontrar_proxima_linha_vazia col inicio fim s
              = (Ok (proxima_linha (aba_mes s) col inicio fim), s')).
Proof.
  unfold _encontrar_proxima_linha_vazia, aba_mes_get, bind, proxima_linha.
  destruct (requisicao_casos s)
    as [[s' [-> [H1 _]]] | [s' [-> _]]]; [right | left; eauto].
  rewrite H1. exists s'. destruct (aparar _); reflexivity.
Qed.

(** What [aparar] drops is a run of empty rows at the end. *)
Lemma aparar_decomp (ls : list (list string)) :
  exists vazias, ls = aparar ls ++ vazias /\
                 List.Forall (fun r => r = []) vazias.
Proof.
  induction ls as [|l ls [v [E F]]]; [exists []; now split |].
  simpl. destruct (aparar ls) as [|a r] eqn:A.
  - destruct l.
    + exists ([] :: v). simpl in E. rewrite E at 1. split; [reflexivity |].
      now constructor.
    + exists v. simpl in *. now rewrite E at 1.
  - exists v. split; [| exact F]. simpl. now rewrite E at 1.
Qed.

Lemma percorrer_app_Some (a b : list (list string)) (l0 l : Z) :
  percorrer a l0 = Some l -> percorrer (a ++ b) l0 = Some l.
Proof.
  revert l0. induction a as [|x a IH]; intros l0; simpl; [discriminate |].
  destruct (linha_vazia x); [easy | apply IH].
Qed.

Lemma percorrer_None (a : list (list string)) (l0 : Z) :
  percorrer a l0 = None -> List.Forall (fun r => linha_vazia r = false) a.
Proof.
  revert l0. induction a as [|x a IH]; intros l0; simpl; [constructor |].
  destruct (linha_vazia x) eqn:E; [discriminate |].
  intros H. constructor; [exact E | exact (IH _ H)].
Qed.

(** The rows of the range split at any row [inicio + m]. *)
Lemma linhas_da_coluna_app g col inicio fim (m : nat) :
  (m <= Z.to_nat (fim - inicio + 1))%nat ->
  linhas_da_coluna g col inicio fim
  = map (fun k => linha_resposta (celula g col (inicio + Z.of_nat k)))
        (seq 0 m)
    ++ map (fun k => linha_resposta (celula g col (inicio + Z.of_nat k)))
           (seq m (Z.to_nat (fim - inicio + 1) - m)).
Proof.
  intros H. rewrite linhas_da_coluna_eq, <- map_app, <- seq_app.
  do 2 f_equal. lia.
Qed.

Lemma linha_resposta_vazia (v : string) : linha_resposta v = [] -> v = "".
Proof.
  unfold linha_resposta. destruct (String.eqb_spec v ""); [easy | discriminate].
Qed.

(** The search, when it answers a row. *)
Lemma proxima_linha_Some g col inicio fim l :
  inicio <= fim ->
  proxima_linha g col inicio fim = Some l ->
  inicio <= l <= fim /\ celula g col l = "" /\
  (forall l', inicio <= l' < l -> celula g col l' <> "").
Proof.
  intros Hr. unfold proxima_linha.
  destruct (aparar_decomp (linhas_da_coluna g col inicio fim)) as [v [E F]].
  destruct (aparar (linhas_da_coluna g col inicio fim)) as [|a r] eqn:A.
  - intros [= <-]. split; [lia |]. split; [| intros; lia].
    simpl in E. rewrite (linhas_da_coluna_app g col inicio fim 1) in E by lia.
    simpl in E. rewrite Z.add_0_r in E. rewrite <- E in F.
    apply List.Forall_inv in F. now apply linha_resposta_vazia.
  - intros P. apply (percorrer_app_Some _ v) in P. rewrite <- E in P.
    pose proof (percorrer_resposta_completa g col inicio 0
                  (Z.to_nat (fim - inicio + 1))) as C.
    rewrite linhas_da_coluna_eq in P. simpl Z.of_nat in C at 1.
    rewrite Z.add_0_r in C. rewrite P in C.
    destruct C as [C1 [C2 C3]]. split; [lia |]. split; [exact C2 |].
    intros l' Hl. apply C3. lia.
Qed.

(** X7: whenever [_encontrar_proxima_linha_vazia] answers a row, whether
    or not later requests fail, that row lies in the range, its cell is
    empty and every row of the range before it is occupied: the search
    never proposes an occupied row. *)
Theorem busca_so_devolve_linha_vazia col inicio fim (s s' : Planilha) l :
  inicio <= fim ->
  _encontrar_proxima_linha_vazia col inicio fim s = (Ok (Some l), s') ->
  inicio <= l <= fim /\ celula (aba_mes s) col l = "" /\
  (forall l', inicio <= l' < l -> celula (aba_mes s) col l' <> "").
Proof.
  intros Hr E.
  destruct (encontrar_casos col inicio fim s) as [[s1 R] | [s1 R]];
    rewrite R in E; [discriminate |].
  injection E as E _. now apply proxima_linha_Some.
Qed.

Lemma busca_so_devolve_linha_vazia_witness :
  let g := <[("B", 12) := "Reembolso"]> (<[("B", 10) := "Salario"]> ∅) in
  let s := {| aba_mes := g; historico := None; falhas := [] |} in
  10 <= 11 <= 14 /\ celula g "B" 11 = "" /\
  (forall l', 10 <= l' < 11 -> celula g "B" l' <> "").
Proof.
  intros g s.
  apply (busca_so_devolve_linha_vazia "B" 10 14 s s 11).
  - lia.
  - reflexivity.
Defined.

(** X8: when no request fails, the search answers [None] exactly when the
    occupied rows of the range are its first rows up to some row [k] and
    every row after [k] is empty: a full section ([k = fim]), but also
    every section filled without gaps from its first row. *)
Theorem busca_None_sse col inicio fim (s : Planilha) :
  falhas s = [] -> inicio <= fim ->
  (fst (_encontrar_proxima_linha_vazia col inicio fim s) = Ok None <->
   exists k, inicio <= k <= fim /\
             (forall l, inicio <= l <= k -> celula (aba_mes s) col l <> "") /\
             (forall l, k < l <= fim -> celula (aba_mes s) col l = "")).
Proof.
  intros H Hr. rewrite (encontrar_sem_falhas col inicio fim s H). simpl fst.
  set (g := aba_mes s). split.
  - intros [= P]. unfold proxima_linha in P.
    destruct (aparar_decomp (linhas_da_coluna g col inicio fim)) as [v [E F]].
    destruct (aparar (linhas_da_coluna g col inicio fim)) as [|a r] eqn:A;
      [discriminate |].
    apply percorrer_None in P.
    set (m := List.length (a :: r)).
    assert (Hm : (m <= Z.to_nat (fim - inicio + 1))%nat).
    { apply (f_equal (@List.length _)) in E.
      rewrite length_app in E. unfold linhas_da_coluna in E.
      rewrite length_map, length_seq in E. subst m. lia. }
    rewrite (linhas_da_coluna_app g col inicio fim m Hm) in E.
    apply app_inj_1 in E as [E1 E2];
      [| now rewrite length_map, length_seq].
    exists (inicio + Z.of_nat m - 1). subst m. cbn [List.length] in *.
    split; [lia |]. split.
    + intros l Hl. rewrite <- E1 in P. rewrite List.Forall_forall in P.
      specialize (P (linha_resposta
                       (celula g col (inicio + Z.of_nat (Z.to_nat (l - inicio)))))).
      rewrite linha_vazia_resposta in P.
      replace (inicio + Z.of_nat (Z.to_nat (l - inicio))) with l in P by lia.
      apply String.eqb_neq, P, in_map_iff.
      exists (Z.to_nat (l - inicio)). split; [f_equal; f_equal; lia |].
      apply in_seq. lia.
    + intros l Hl. rewrite <- E2 in F. rewrite List.Forall_forall in F.
      apply linha_resposta_vazia, F, in_map_iff.
      exists (Z.to_nat (l - inicio)). split; [f_equal; f_equal; lia |].
      apply in_seq. lia.
  - intros [k [Hk [Ho He]]]. f_equal.
    now apply (proxima_linha_prefixo_ocupado g col inicio fim k).
Qed.

Lemma busca_None_sse_witness :
  fst (_encontrar_proxima_linha_vazia "B" 10 14 secao_com_tres) = Ok None <->
  exists k, 10 <= k <= 14 /\
            (forall l, 10 <= l <= k ->
                       celula (aba_mes secao_com_tres) "B" l <> "") /\
            (forall l, k < l <= 14 ->
                       celula (aba_mes secao_com_tres) "B" l = "").
Proof.
  apply (busca_None_sse "B" 10 14 secao_com_tres).
  - reflexivity.
  - lia.
Defined.

End BuscaMais.

Section InsercaoMais.
Import PyStr Gspread IntegradorSheets.

Lemma take_len (n : nat) (s : string) :
  len (take n s) = Nat.min n (len s).
Proof.
  revert n. induction s as [|a s IH]; intros n; cbn [take len];
    [now rewrite Nat.min_0_r |].
  destruct (continuacao a) eqn:E.
  - cbn [len]. rewrite E. apply IH.
  - destruct n as [|n]; cbn [len]; [reflexivity |]. rewrite E.
    specialize (IH n). lia.
Qed.

Lemma take_prefixo (n : nat) (s : string) : startswith (take n s) s = true.
Proof.
  revert n. induction s as [|a s IH]; intros n; cbn [take]; [reflexivity |].
  destruct (continuacao a); [| destruct n; [reflexivity |]];
    cbn [startswith]; now rewrite Ascii.eqb_refl, IH.
Qed.

Lemma take_nonempty (n : nat) (s : string) : s <> "" -> take (S n) s <> "".
Proof.
  destruct s as [|a s]; [congruence |]. intros _. cbn [take].
  destruct (continuacao a); discriminate.
Qed.

Lemma nth_error_firstn_lt {A} (n k : nat) (l : list A) :
  (k < n)%nat -> nth_error (firstn n l) k = nth_error l k.
Proof.
  revert k l. induction n as [|n IH]; intros k l H; [lia |].
  destruct l as [|x l]; [reflexivity |]. destruct k as [|k]; [reflexivity |].
  simpl. apply IH. lia.
Qed.

(** X9: when no request fails and the search answers row [l], the record
    of index [k] of the batch is written on row [l + k] as long as that
    row does not pass [fim], whatever the cell held before: only the first
    row is probed for emptiness.  The cell receives the first 50
    characters of the description, or all of it when it has fewer
    (characters, not bytes: an accented letter counts once). *)
Theorem linhas_escritas_pela_insercao
        (df : list Transacao) col inicio fim (s : Planilha) l (k : nat) row :
  falhas s = [] ->
  fst (_encontrar_proxima_linha_vazia col inicio fim s) = Ok (Some l) ->
  l <> 0 ->
  nth_error df k = Some row ->
  l + Z.of_nat k <= fim ->
  let s' := snd (_inserir_generico df col inicio fim s) in
  aba_mes s' !! (col, l + Z.of_nat k) = Some (take 50 (Descricao row)) /\
  len (take 50 (Descricao row)) = Nat.min 50 (len (Descricao row)) /\
  startswith (take 50 (Descricao row)) (Descricao row) = true.
Proof.
  intros H E Hl Hk Hf s'. subst s'.
  rewrite (encontrar_sem_falhas col inicio fim s H) in E. injection E as E.
  rewrite (inserir_generico_sem_falhas df col inicio fim s H).
  unfold apos_insercao. rewrite E. simpl snd. simpl aba_mes.
  assert (G : negb (l =? 0) && (l <=? fim) = true).
  { apply andb_true_iff. split; [apply negb_true_iff, Z.eqb_neq; exact Hl |].
    apply Z.leb_le. lia. }
  rewrite G. split; [| split; [apply take_len | apply take_prefixo]].
  apply escrever_descricoes_dentro.
  rewrite nth_error_firstn_lt; [exact Hk | lia].
Qed.

Definition transferencia : Transacao :=
  {| Data := "07/01/2024";
     Descricao :=
       "Transferência enviada João Conceição Gonçalves Araújo Simões";
     Valor := -15000 |}.

Lemma linhas_escritas_pela_insercao_witness :
  let g := <[("B", 26) := "Gasto anterior"]> ∅ in
  let s := {| aba_mes := g; historico := None; falhas := [] |} in
  let s' := snd (_inserir_generico [uber_trip; transferencia] "B" 25 51 s) in
  aba_mes s' !! ("B", 25 + Z.of_nat 1)
  = Some (take 50 (Descricao transferencia)) /\
  len (take 50 (Descricao transferencia))
  = Nat.min 50 (len (Descricao transferencia)) /\
  startswith (take 50 (Descricao transferencia)) (Descricao transferencia)
  = true.
Proof.
  intros g s.
  apply (linhas_escritas_pela_insercao [uber_trip; transferencia] "B" 25 51 s
           25 1 transferencia).
  - reflexivity.
  - reflexivity.
  - lia.
  - reflexivity.
  - simpl. lia.
Defined.

(** The cut of an accented description: 50 characters, 55 bytes. *)
Example corte_de_descricao_acentuada :
  take 50 (Descricao transferencia)
  = "Transferência enviada João Conceição Gonçalves Ara" /\
  len (take 50 (Descricao transferencia)) = 50%nat /\
  String.length (take 50 (Descricao transferencia)) = 55%nat.
Proof. vm_compute. repeat split. Qed.

(** X10: a section takes one batch only.  After a fault-free insertion of
    a batch with non-empty descriptions into an empty section, the rows
    written are its first rows, the search answers [None] from then on,
    and any further insertion into the section returns normally without
    writing a cell. *)
Theorem secao_aceita_um_so_lote
        (df1 df2 : list Transacao) col inicio fim (s : Planilha) :
  falhas s = [] ->
  1 <= inicio <= fim ->
  df1 <> [] ->
  (forall r, In r df1 -> Descricao r <> "") ->
  (forall l, inicio <= l <= fim -> celula (aba_mes s) col l = "") ->
  let s1 := snd (_inserir_generico df1 col inicio fim s) in
  _inserir_generico df2 col inicio fim s1 = (Ok tt, s1).
Proof.
  intros H Hr Hne Hd He s1.
  assert (G : negb (inicio =? 0) && (inicio <=? fim) = true).
  { apply andb_true_iff. split; [apply negb_true_iff, Z.eqb_neq; lia |].
    apply Z.leb_le. lia. }
  set (w := firstn (Z.to_nat (fim - inicio + 1)) df1).
  set (g1 := escrever_descricoes col inicio w (aba_mes s)).
  assert (E1 : s1 = com_aba_mes g1 s).
  { subst s1. rewrite (inserir_generico_sem_falhas df1 col inicio fim s H).
    simpl snd. unfold apos_insercao.
    now rewrite (proxima_linha_secao_vazia _ _ _ _ He), G. }
  rewrite E1. clear E1 s1.
  assert (Lw : (1 <= List.length w <= Z.to_nat (fim - inicio + 1))%nat).
  { subst w. rewrite length_firstn. destruct df1; [congruence |].
    simpl List.length. lia. }
  assert (N : proxima_linha g1 col inicio fim = None).
  { apply (proxima_linha_prefixo_ocupado g1 col inicio fim
             (inicio + Z.of_nat (List.length w) - 1)); [lia | |].
    - intros l Hl. subst g1. unfold celula.
      destruct (nth_error w (Z.to_nat (l - inicio))) as [row|] eqn:R.
      + replace l with (inicio + Z.of_nat (Z.to_nat (l - inicio))) by lia.
        rewrite (escrever_descricoes_dentro _ _ _ _ _ _ R).
        change (take 50 (Descricao row) <> "").
        apply (take_nonempty 49), Hd.
        apply nth_error_In in R. subst w.
        revert R. generalize (Z.to_nat (fim - inicio + 1)).
        clear. intros n. revert df1.
        induction n as [|n IH]; intros [|x df1]; simpl; try tauto.
        intros [-> | R]; [now left | right; now apply IH].
      + apply nth_error_None in R. lia.
    - intros l Hl. subst g1. unfold celula.
      rewrite escrever_descricoes_fora by (right; right; lia).
      apply He. lia. }
  rewrite (inserir_generico_sem_falhas df2 col inicio fim
             (com_aba_mes g1 s) H).
  unfold apos_insercao. simpl aba_mes. rewrite N. reflexivity.
Qed.

Lemma secao_aceita_um_so_lote_witness :
  let s1 := snd (_inserir_generico tres_registros "B" 10 19 planilha_nova) in
  _inserir_generico tres_registros "B" 10 19 s1 = (Ok tt, s1).
Proof.
  apply (secao_aceita_um_so_lote tres_registros tres_registros "B" 10 19
           planilha_nova).
  - reflexivity.
  - lia.
  - discriminate.
  - simpl. intros r [<- | [<- | [<- | []]]]; discriminate.
  - intros l _. reflexivity.
Defined.

End InsercaoMais.

(** * Further properties of an import *)

Section ImportacaoMais.
Import PyStr Gspread IntegradorSheets Hashlib.

(** The query reads the month's worksheet never, and an existing ledger
    only. *)
Lemma get_transacoes_frame (s : Planilha) :
  aba_mes (snd (_get_transacoes_existentes s)) = aba_mes s /\
  (forall linhas, historico s = Some linhas ->
                  historico (snd (_get_transacoes_existentes s)) = Some linhas).
Proof.
  destruct s as [g h f].
  unfold _get_transacoes_existentes, tentar, bind, worksheet_historico,
    get_all_values, _criar_aba_historico, add_worksheet_historico,
    historico_update, bind, requisicao.
  destruct h as [linhas|]; destruct f as [|[] [|[] [|[] f]]]; simpl;
    split; try reflexivity; intros ? [=]; congruence.
Qed.

Lemma inserir_generico_frame_snd
      (df : list Transacao) col inicio fim (s : Planilha) c l :
  c <> col \/ l < inicio \/ fim < l ->
  aba_mes (snd (_inserir_generico df col inicio fim s)) !! (c, l)
  = aba_mes s !! (c, l).
Proof.
  intros H. pose proof (inserir_generico_frame df col inicio fim s) as F.
  destruct (_inserir_generico df col inicio fim s) as [r s'].
  destruct F as [F _]. now apply F.
Qed.

(** An empty frame writes nothing, whatever the search answers. *)
Lemma inserir_generico_vazio col inicio fim (s : Planilha) :
  aba_mes (snd (_inserir_generico [] col inicio fim s)) = aba_mes s.
Proof.
  unfold _inserir_generico, bind.
  pose proof (encontrar_frame col inicio fim s) as F.
  destruct (_encontrar_proxima_linha_vazia col inicio fim s)
    as [[[l|]|e] s1]; destruct F as [F _]; try exact F.
  destruct (negb (l =? 0) && (l <=? fim)); exact F.
Qed.

(** The state [_processar_insercoes] ends in is the state after the
    first, the second or the third insertion. *)
Lemma processar_passos (df : list LinhaHash) (s : Planilha) :
  let linhas := map transacao df in
  let s1 := snd (_inserir_entradas
                   (List.filter (fun r => String.eqb (tipo_de r) "Receita")
                                linhas) s) in
  let s2 := snd (_inserir_gastos_fixos
                   (List.filter (fun r => String.eqb (tipo_de r) "Despesa"
                                          && eh_fixo_de r) linhas) s1) in
  let s3 := snd (_inserir_gastos_variaveis
                   (List.filter (fun r => String.eqb (tipo_de r) "Despesa"
                                          && negb (eh_fixo_de r)) linhas) s2) in
  snd (_processar_insercoes df s) = s1 \/
  snd (_processar_insercoes df s) = s2 \/
  snd (_processar_insercoes df s) = s3.
Proof.
  intros linhas s1 s2 s3. subst s1 s2 s3.
  unfold _processar_insercoes, bind. fold linhas.
  destruct (_inserir_entradas _ s) as [[[]|e1] t1]; [| now left].
  simpl snd.
  destruct (_inserir_gastos_fixos _ t1) as [[[]|e2] t2]; [| right; now left].
  simpl snd. right. right. reflexivity.
Qed.

(** The three ranges of [Config]. *)
Definition em_secao (c : string) (l : Z) : bool :=
  (String.eqb c Config.ENTRADAS_COL_DESCRICAO
   && (Config.ENTRADAS_INICIO_LINHA <=? l) && (l <=? Config.ENTRADAS_FIM_LINHA))
  || (String.eqb c Config.FIXOS_COL_DESCRICAO
      && (Config.FIXOS_INICIO_LINHA <=? l) && (l <=? Config.FIXOS_FIM_LINHA))
  || (String.eqb c Config.VARIAVEIS_COL_DESCRICAO
      && (Config.VARIAVEIS_INICIO_LINHA <=? l)
      && (l <=? Config.VARIAVEIS_FIM_LINHA)).

Lemma fora_da_faixa c l col inicio fim :
  String.eqb c col && (inicio <=? l) && (l <=? fim) = false ->
  c <> col \/ l < inicio \/ fim < l.
Proof.
  destruct (String.eqb_spec c col) as [-> | N]; [| now left].
  destruct (Z.leb_spec inicio l); [| right; now left].
  destruct (Z.leb_spec l fim); [discriminate | right; now right].
Qed.

Lemma processar_frame (df : list LinhaHash) (s : Planilha) c l :
  em_secao c l = false ->
  aba_mes (snd (_processar_insercoes df s)) !! (c, l) = aba_mes s !! (c, l).
Proof.
  unfold em_secao. rewrite !orb_false_iff. intros [[E F] V].
  apply fora_da_faixa in E, F, V.
  pose proof (processar_passos df s) as P. cbv zeta in P.
  unfold _inserir_entradas, _inserir_gastos_fixos, _inserir_gastos_variaveis
    in P.
  destruct P as [-> | [-> | ->]];
    rewrite ?(inserir_generico_frame_snd _ _ _ _ _ c l V),
            ?(inserir_generico_frame_snd _ _ _ _ _ c l F),
            ?(inserir_generico_frame_snd _ _ _ _ _ c l E); reflexivity.
Qed.

(** X11: whatever the batch and whichever requests fail, an import
    changes no cell of the month's worksheet outside the three configured
    ranges, B10:B19, H17:H26 and B25:B51. *)
Theorem importar_so_escreve_nas_secoes
        agora (df : list Transacao) (s : Planilha) c l :
  em_secao c l = false ->
  aba_mes (snd (importar_transacoes agora df s)) !! (c, l)
  = aba_mes s !! (c, l).
Proof.
  intros H. unfold importar_transacoes, bind.
  destruct (get_transacoes_frame s) as [G _].
  destruct (_get_transacoes_existentes s) as [[hs|e] s1]; simpl in G;
    [| simpl; now rewrite G].
  cbv zeta. destruct (List.filter _ (com_hash df)) as [|n ns] eqn:N;
    [simpl; now rewrite G |].
  pose proof (processar_frame (n :: ns) s1 c l H) as P.
  destruct (_processar_insercoes (n :: ns) s1) as [[[]|e] s2]; simpl in P;
    [| simpl; now rewrite P, G].
  destruct (atualizar_nunca_levanta agora (n :: ns) s2) as [s3 [-> [A _]]].
  simpl. now rewrite A, P, G.
Qed.

Lemma importar_so_escreve_nas_secoes_witness :
  aba_mes (snd (importar_transacoes "05/01/2024 10:00:00" [uber_trip]
                  (falha_na_requisicao 6))) !! ("B", 20)
  = aba_mes (falha_na_requisicao 6) !! ("B", 20).
Proof.
  apply (importar_so_escreve_nas_secoes "05/01/2024 10:00:00" [uber_trip]
           (falha_na_requisicao 6) "B" 20).
  reflexivity.
Defined.

(** X12: an import never removes or alters a row of an existing ledger,
    whichever requests fail: the ledger it leaves is the one it found
    followed by the rows it appended, if any. *)
Theorem historico_so_cresce
        agora (df : list Transacao) (s : Planilha) linhas :
  historico s = Some linhas ->
  exists novas,
    historico (snd (importar_transacoes agora df s)) = Some (linhas ++ novas).
Proof.
  intros H. unfold importar_transacoes, bind.
  destruct (get_transacoes_frame s) as [_ G]. specialize (G linhas H).
  destruct (_get_transacoes_existentes s) as [[hs|e] s1]; simpl in G;
    [| exists []; simpl; now rewrite app_nil_r].
  cbv zeta. destruct (List.filter _ (com_hash df)) as [|n ns] eqn:N;
    [exists []; simpl; now rewrite app_nil_r |].
  pose proof (processar_historico (n :: ns) s1) as P.
  destruct (_processar_insercoes (n :: ns) s1) as [[[]|e] s2]; simpl in P;
    [| exists []; simpl; rewrite app_nil_r; congruence].
  destruct (atualizar_nunca_levanta agora (n :: ns) s2)
    as [s3 [-> [_ [A | [ls [A1 A2]]]]]]; simpl.
  - exists []. rewrite app_nil_r. congruence.
  - exists (map (linha_historico agora) (n :: ns)).
    rewrite A2. f_equal. f_equal. congruence.
Qed.

Lemma historico_so_cresce_witness :
  exists novas,
    historico (snd (importar_transacoes "05/01/2024 10:00:00" [uber_trip]
                      (falha_na_requisicao 9)))
    = Some ([Config.CABECALHO_HISTORICO] ++ novas).
Proof.
  apply (historico_so_cresce "05/01/2024 10:00:00" [uber_trip]
           (falha_na_requisicao 9) [Config.CABECALHO_HISTORICO]).
  reflexivity.
Defined.

Lemma sobreviventes_sem_registrados (df : list Transacao) :
  sobreviventes [] df = com_hash df.
Proof.
  unfold sobreviventes. induction (com_hash df) as [|r l IH];
    [reflexivity |].
  cbn [List.filter].
  destruct (bool_decide_reflect (Hash r ∈ ([] : list string))) as [E | _].
  - now apply elem_of_nil in E.
  - cbn [negb]. now rewrite IH.
Qed.

(** X13: a ledger whose first row names no column [Hash] deduplicates
    nothing.  When no request fails, every record of the batch survives
    and is appended below the rows found, the first row staying as it
    was: every later import of the same batch does the same again. *)
Theorem historico_sem_coluna_hash_nao_deduplica
        agora (df : list Transacao) (s : Planilha) colunas dados :
  df <> [] ->
  falhas s = [] ->
  historico s = Some (colunas :: dados) ->
  ~ In "Hash" colunas ->
  let s' := snd (importar_transacoes agora df s) in
  historico s'
  = Some (colunas :: dados ++ map (linha_historico agora) (com_hash df)) /\
  falhas s' = [].
Proof.
  intros Hd H Hh Hn s'. subst s'.
  rewrite (importar_sem_falhas agora df s H). simpl snd.
  assert (R : hashes_registrados s = []).
  { unfold hashes_registrados. rewrite Hh. simpl.
    now rewrite (indice_coluna_ausente _ _ Hn). }
  rewrite R, sobreviventes_sem_registrados, Hh.
  destruct df as [|r df]; [congruence |]. simpl. now split.
Qed.

Lemma historico_sem_coluna_hash_nao_deduplica_witness :
  let s' := snd (importar_transacoes "05/01/2024 10:00:00" [uber_trip]
                   historico_sem_coluna_hash) in
  historico s'
  = Some (["Data"; "Descricao"; "Valor"]
            :: [["05/01/2024"; "UBER *TRIP"; "-23.5"]]
               ++ map (linha_historico "05/01/2024 10:00:00")
                      (com_hash [uber_trip])) /\
  falhas s' = [].
Proof.
  apply (historico_sem_coluna_hash_nao_deduplica "05/01/2024 10:00:00"
           [uber_trip] historico_sem_coluna_hash).
  - discriminate.
  - reflexivity.
  - reflexivity.
  - simpl. intros [F | [F | [F | []]]]; discriminate F.
Defined.

End ImportacaoMais.

Section RoteamentoMais.
Import PyStr Gspread IntegradorSheets Hashlib.

(** X14: records reach their own section only.  Whichever requests fail,
    a batch without incomes leaves the range of incomes, B10:B19, as it
    was, and a batch without expenses leaves the two ranges of expenses,
    H17:H26 and B25:B51, as they were. *)
Theorem cada_secao_so_recebe_os_seus
        (df : list LinhaHash) (s : Planilha) (c : string) (l : Z) :
  ((forall r, In r df -> tipo_de (transacao r) <> "Receita") ->
   Config.ENTRADAS_INICIO_LINHA <= l <= Config.ENTRADAS_FIM_LINHA ->
   aba_mes (snd (_processar_insercoes df s))
     !! (Config.ENTRADAS_COL_DESCRICAO, l)
   = aba_mes s !! (Config.ENTRADAS_COL_DESCRICAO, l)) /\
  ((forall r, In r df -> tipo_de (transacao r) <> "Despesa") ->
   (c = Config.FIXOS_COL_DESCRICAO /\
    Config.FIXOS_INICIO_LINHA <= l <= Config.FIXOS_FIM_LINHA) \/
   (c = Config.VARIAVEIS_COL_DESCRICAO /\
    Config.VARIAVEIS_INICIO_LINHA <= l <= Config.VARIAVEIS_FIM_LINHA) ->
   aba_mes (snd (_processar_insercoes df s)) !! (c, l) = aba_mes s !! (c, l)).
Proof.
  pose proof (processar_passos df s) as P. cbv zeta in P.
  unfold _inserir_entradas, _inserir_gastos_fixos, _inserir_gastos_variaveis
    in P.
  unfold Config.ENTRADAS_INICIO_LINHA, Config.ENTRADAS_FIM_LINHA,
    Config.ENTRADAS_COL_DESCRICAO, Config.FIXOS_INICIO_LINHA,
    Config.FIXOS_FIM_LINHA, Config.FIXOS_COL_DESCRICAO,
    Config.VARIAVEIS_INICIO_LINHA, Config.VARIAVEIS_FIM_LINHA,
    Config.VARIAVEIS_COL_DESCRICAO in *.
  split.
  - intros Hn Hl.
    assert (E : List.filter (fun r => String.eqb (tipo_de r) "Receita")
                            (map transacao df) = []).
    { apply filter_vazio. intros x Hx. apply in_map_iff in Hx as [r [<- Hr]].
      apply String.eqb_neq. now apply Hn. }
    rewrite E in P.
    assert (F : forall d t, aba_mes (snd (_inserir_generico d "H" 17 26 t))
                            !! ("B", l) = aba_mes t !! ("B", l))
      by (intros; apply inserir_generico_frame_snd; left; discriminate).
    assert (V : forall d t, aba_mes (snd (_inserir_generico d "B" 25 51 t))
                            !! ("B", l) = aba_mes t !! ("B", l))
      by (intros; apply inserir_generico_frame_snd; right; left; lia).
    destruct P as [-> | [-> | ->]];
      rewrite ?V, ?F, inserir_generico_vazio; reflexivity.
  - intros Hn Hl.
    assert (E1 : List.filter (fun r => String.eqb (tipo_de r) "Despesa"
                                       && eh_fixo_de r)
                             (map transacao df) = []).
    { apply filter_vazio. intros x Hx. apply in_map_iff in Hx as [r [<- Hr]].
      apply andb_false_iff. left. apply String.eqb_neq. now apply Hn. }
    assert (E2 : List.filter (fun r => String.eqb (tipo_de r) "Despesa"
                                       && negb (eh_fixo_de r))
                             (map transacao df) = []).
    { apply filter_vazio. intros x Hx. apply in_map_iff in Hx as [r [<- Hr]].
      apply andb_false_iff. left. apply String.eqb_neq. now apply Hn. }
    rewrite E1, E2 in P.
    assert (R : forall d t, aba_mes (snd (_inserir_generico d "B" 10 19 t))
                            !! (c, l) = aba_mes t !! (c, l)).
    { intros. apply inserir_generico_frame_snd.
      destruct Hl as [[-> _] | [_ Hl]]; [left; discriminate | right; right; lia]. }
    destruct P as [-> | [-> | ->]];
      rewrite ?inserir_generico_vazio, R; reflexivity.
Qed.

Lemma cada_secao_so_recebe_os_seus_witness :
  aba_mes (snd (_processar_insercoes (com_hash [uber_trip]) planilha_nova))
    !! (Config.ENTRADAS_COL_DESCRICAO, 10)
  = aba_mes planilha_nova !! (Config.ENTRADAS_COL_DESCRICAO, 10) /\
  aba_mes (snd (_processar_insercoes (com_hash [salario]) planilha_nova))
    !! ("H", 17)
  = aba_mes planilha_nova !! ("H", 17).
Proof.
  split.
  - apply (proj1 (cada_secao_so_recebe_os_seus (com_hash [uber_trip])
                    planilha_nova "B" 10)).
    + simpl. intros r [<- | []]. vm_compute. discriminate.
    + vm_compute. split; discriminate.
  - apply (proj2 (cada_secao_so_recebe_os_seus (com_hash [salario])
                    planilha_nova "H" 17)).
    + simpl. intros r [<- | []]. vm_compute. discriminate.
    + left. split; [reflexivity |]. vm_compute. split; discriminate.
Defined.

(** X16: the query is idempotent when no request fails: asked again on
    the state it left, it gives the same answer and changes nothing; in
    particular the ledger is created, and its header written, once. *)
Theorem consulta_idempotente (s : Planilha) :
  falhas s = [] ->
  let '(r1, s1) := _get_transacoes_existentes s in
  _get_transacoes_existentes s1 = (r1, s1).
Proof.
  intros H. rewrite (get_transacoes_sem_falhas s H).
  destruct (historico s) as [linhas|] eqn:Hh.
  - now rewrite (get_transacoes_sem_falhas s H), Hh.
  - rewrite get_transacoes_sem_falhas by exact H. reflexivity.
Qed.

Lemma consulta_idempotente_witness :
  let '(r1, s1) := _get_transacoes_existentes planilha_nova in
  _get_transacoes_existentes s1 = (r1, s1).
Proof.
  apply (consulta_idempotente planilha_nova). reflexivity.
Defined.

End RoteamentoMais.

Section TextoMais.
Import PyStr Texto IntegradorSheets.

(** X17: for records whose date is in the form the reader leaves it,
    [strftime('%d/%m/%Y')], the hashed text determines the record: two
    such records with the same text have the same date text, description
    and amount, whatever separators the descriptions hold. *)
Theorem texto_determina_o_registro
        (dia1 mes1 ano1 dia2 mes2 ano2 : N) (desc1 desc2 : string)
        (valor1 valor2 : Z) :
  let r1 := {| Data := strftime_dmY dia1 mes1 ano1; Descricao := desc1;
               Valor := valor1 |} in
  let r2 := {| Data := strftime_dmY dia2 mes2 ano2; Descricao := desc2;
               Valor := valor2 |} in
  texto_transacao r1 = texto_transacao r2 ->
  strftime_dmY dia1 mes1 ano1 = strftime_dmY dia2 mes2 ano2 /\
  desc1 = desc2 /\ valor1 = valor2.
Proof.
  intros r1 r2 H.
  apply texto_transacao_inj in H; try apply free_of_strftime.
  now injection H.
Qed.

Lemma texto_determina_o_registro_witness :
  strftime_dmY 5 1 2024 = strftime_dmY 5 1 2024 /\
  "Pix | recebida" = "Pix | recebida" /\ 12000 = 12000.
Proof.
  apply (texto_determina_o_registro 5 1 2024 5 1 2024
           "Pix | recebida" "Pix | recebida" 12000 12000).
  reflexivity.
Defined.

End TextoMais.

(** * The ledger as the query reads it *)

Section LeituraDoHistorico.
Import PyStr GspreadDataframe Gspread IntegradorSheets Hashlib.

(** The cells of the column [Hash] of the ledger, as they are stored. *)
Definition coluna_hash (s : Planilha) : list string :=
  match historico s with
  | Some (colunas :: dados) =>
      match indice_coluna "Hash" colunas with
      | Some i => celulas_da_coluna i dados
      | None => []
      end
  | _ => []
  end.

Definition presentes (celulas : list string) : list string :=
  List.filter (fun v => negb (eh_nulo v)) celulas.

Lemma hashes_registrados_coluna (s : Planilha) :
  hashes_registrados s = coluna_lida (coluna_hash s).
Proof.
  unfold hashes_registrados, coluna_hash, hashes_da_tabela.
  destruct (historico s) as [[|colunas dados]|]; simpl; try reflexivity.
  destruct (indice_coluna "Hash" colunas); reflexivity.
Qed.

(** What the parser reads from a column is among its cells. *)
Lemma coluna_lida_In (celulas : list string) (v : string) :
  In v (coluna_lida celulas) -> In v celulas /\ eh_nulo v = false.
Proof.
  unfold coluna_lida. cbv zeta.
  destruct (forallb parece_numero _ || forallb parece_bool _); [intros [] |].
  rewrite filter_In, negb_true_iff. tauto.
Qed.

(** A column with one cell that is neither missing, nor a number, nor a
    boolean stays a column of texts. *)
Lemma coluna_lida_texto (celulas : list string) (v : string) :
  In v celulas -> eh_nulo v = false ->
  parece_numero v = false -> parece_bool v = false ->
  coluna_lida celulas = presentes celulas.
Proof.
  intros Hin Hn Hnum Hb. unfold coluna_lida, presentes. cbv zeta.
  assert (P : In v (List.filter (fun v => negb (eh_nulo v)) celulas))
    by (apply filter_In; split; [exact Hin | now rewrite Hn]).
  assert (A : forallb parece_numero
                (List.filter (fun v => negb (eh_nulo v)) celulas) = false).
  { destruct (forallb _ _) eqn:E; [| reflexivity].
    rewrite forallb_forall in E. now rewrite (E v P) in Hnum. }
  assert (B : forallb parece_bool
                (List.filter (fun v => negb (eh_nulo v)) celulas) = false).
  { destruct (forallb parece_bool _) eqn:E; [| reflexivity].
    rewrite forallb_forall in E. now rewrite (E v P) in Hb. }
  now rewrite A, B.
Qed.

Lemma md5_hexdigest_length (msg : list Z) :
  String.length (md5_hexdigest msg) = 32%nat.
Proof.
  unfold md5_hexdigest, digest. cbv zeta.
  set (st := fold_left bloco _ inicial).
  destruct (hex_formato (bytes_le 4 (rA st) ++ bytes_le 4 (rB st) ++
                         bytes_le 4 (rC st) ++ bytes_le 4 (rD st)))
    as [L _].
  { repeat (apply Forall_app; split); apply bytes_le_range. }
  now rewrite !length_app, !bytes_le_length in L.
Qed.

(** A digest is never the text of a missing value or of a boolean. *)
Lemma digest_presente (row : Transacao) :
  eh_nulo (_gerar_hash_transacao row) = false /\
  parece_bool (_gerar_hash_transacao row) = false.
Proof.
  pose proof (md5_hexdigest_length (str_encode (texto_transacao row))) as L.
  fold (_gerar_hash_transacao row) in L.
  split.
  - destruct (eh_nulo _) eqn:E; [| reflexivity]. exfalso.
    apply existsb_exists in E as [x [Hin Heq]].
    apply String.eqb_eq in Heq. rewrite Heq in L. clear Heq.
    unfold STR_NA_VALUES in Hin. simpl in Hin.
    repeat (destruct Hin as [<- | Hin]; [discriminate L |]). exact Hin.
  - destruct (parece_bool _) eqn:E; [| reflexivity]. exfalso.
    apply existsb_exists in E as [x [Hin Heq]].
    apply String.eqb_eq in Heq. rewrite Heq in L. clear Heq.
    unfold VALORES_BOOL in Hin. simpl in Hin.
    repeat (destruct Hin as [<- | Hin]; [discriminate L |]). exact Hin.
Qed.

(** The column after a fault-free run: the cells found, then the hashes
    of the records that passed the filter. *)
Lemma coluna_hash_apos_importar agora (df : list Transacao) (s : Planilha) :
  historico_bem_formado s ->
  coluna_hash (apos_importar agora df s)
  = coluna_hash s ++ map Hash (sobreviventes (hashes_registrados s) df).
Proof.
  intros W. unfold apos_importar, historico_bem_formado in *.
  assert (E : forall novas : list LinhaHash,
    match default [Config.CABECALHO_HISTORICO] (historico s)
          ++ map (linha_historico agora) novas with
    | colunas :: dados =>
        match indice_coluna "Hash" colunas with
        | Some i => celulas_da_coluna i dados
        | None => []
        end
    | [] => []
    end = coluna_hash s ++ map Hash novas).
  { intros novas. unfold coluna_hash.
    destruct (historico s) as [linhas|]; simpl default.
    - destruct W as [colunas [dados ->]]. simpl.
      unfold celulas_da_coluna. rewrite map_app, map_map. reflexivity.
    - simpl. unfold celulas_da_coluna. rewrite map_map. reflexivity. }
  destruct (sobreviventes (hashes_registrados s) df) as [|n ns] eqn:S.
  - specialize (E []). simpl map in E. rewrite !app_nil_r in E.
    cbn [map]. rewrite app_nil_r. unfold coluna_hash at 1. simpl historico.
    exact E.
  - exact (E (n :: ns)).
Qed.

(** After a fault-free run on a well-formed ledger, when one hash of the
    batch does not read as a number, the filter keeps no record of the
    same batch. *)
Lemma nada_sobrevive_a_segunda agora (df : list Transacao) (s : Planilha) :
  historico_bem_formado s ->
  (exists row, In row df /\
               parece_numero (_gerar_hash_transacao row) = false) ->
  hashes_registrados (apos_importar agora df s)
  = presentes (coluna_hash s
                 ++ map Hash (sobreviventes (hashes_registrados s) df)) /\
  sobreviventes (hashes_registrados (apos_importar agora df s)) df = [].
Proof.
  intros W [t [Ht Hnum]].
  assert (M : forall row, In row df ->
                In (_gerar_hash_transacao row)
                   (coluna_hash s
                      ++ map Hash (sobreviventes (hashes_registrados s) df))).
  { intros row Hrow. apply in_or_app.
    destruct (in_dec String.string_dec (_gerar_hash_transacao row)
                     (hashes_registrados s)) as [Hin | Hout].
    - left. rewrite hashes_registrados_coluna in Hin.
      now apply coluna_lida_In in Hin.
    - right.
      apply (in_map Hash _ {| transacao := row;
                              Hash := _gerar_hash_transacao row |}).
      apply sobreviventes_In. split; [| exact Hout].
      apply com_hash_In. eauto. }
  assert (R : hashes_registrados (apos_importar agora df s)
              = presentes (coluna_hash s
                  ++ map Hash (sobreviventes (hashes_registrados s) df))).
  { rewrite hashes_registrados_coluna, (coluna_hash_apos_importar _ _ _ W).
    destruct (digest_presente t) as [N B].
    exact (coluna_lida_texto _ _ (M t Ht) N Hnum B). }
  split; [exact R |].
  rewrite R. unfold sobreviventes at 1. apply filter_vazio. intros r Hr.
  apply com_hash_In in Hr as [row [Hrow ->]]. cbn [Hash].
  apply negb_false_iff, bool_decide_eq_true, list_elem_of_In.
  unfold presentes. apply filter_In. split; [now apply M |].
  destruct (digest_presente row) as [N _]. now rewrite N.
Qed.

(** C1, as the code has it: when no request fails, the ledger is absent
    or has [Hash] as its first column, and one hash of the batch does not
    read as a number (so that the parser keeps the column as texts), the
    second import of a batch keeps no record at the deduplication step
    and returns there, leaving the spreadsheet exactly as the first
    import left it (no section write, no history row).  The query then
    reads the hash of every record of the batch; a hash that the first
    query did not read is in the column as many times more as the batch
    has records with that hash, which is once when no two records of the
    batch share date, description and amount. *)
Theorem C1_segunda_importacao_nada_altera
        (agora1 agora2 : string) (df : list Transacao) (s : Planilha) :
  df <> [] -> falhas s = [] -> historico_bem_formado s ->
  (exists row, In row df /\
               parece_numero (_gerar_hash_transacao row) = false) ->
  let '(r1, s1) := importar_transacoes agora1 df s in
  let '(r2, s2) := importar_transacoes agora2 df s1 in
  r1 = Ok tt /\ r2 = Ok tt /\
  (exists hs, _get_transacoes_existentes s1 = (Ok hs, s1) /\
              List.filter (fun r => negb (bool_decide (Hash r ∈ hs)))
                          (com_hash df) = []) /\
  s2 = s1 /\
  (forall row, In row df ->
               In (_gerar_hash_transacao row) (hashes_registrados s2)) /\
  (forall h,
      contar h (coluna_hash s2)
      = (contar h (coluna_hash s)
         + if bool_decide (h ∈ hashes_registrados s) then O
           else contar h (map _gerar_hash_transacao df))%nat).
Proof.
  intros _ H W T. rewrite (importar_apos agora1 df s H). cbv beta iota.
  destruct (apos_importar_estado agora1 df s H) as [H1 [linhas L1]].
  destruct (nada_sobrevive_a_segunda agora1 df s W T) as [R N].
  rewrite (importar_apos agora2 df _ H1). cbv beta iota.
  assert (E : apos_importar agora2 df (apos_importar agora1 df s)
              = apos_importar agora1 df s).
  { unfold apos_importar at 1. rewrite N, L1. simpl default.
    rewrite <- L1. now destruct (apos_importar agora1 df s). }
  rewrite E. split; [reflexivity |]. split; [reflexivity |]. split.
  { exists (list_to_set (hashes_registrados (apos_importar agora1 df s))).
    split.
    - rewrite (get_transacoes_sem_falhas _ H1), L1.
      unfold hashes_registrados. now rewrite L1.
    - rewrite sobreviventes_gset. exact N. }
  split; [reflexivity |]. split.
  - intros row Hrow.
    assert (S : ~ In {| transacao := row; Hash := _gerar_hash_transacao row |}
                    (sobreviventes
                       (hashes_registrados (apos_importar agora1 df s)) df))
      by (rewrite N; intros []).
    rewrite sobreviventes_In in S.
    destruct (in_dec String.string_dec (_gerar_hash_transacao row)
                (hashes_registrados (apos_importar agora1 df s)))
      as [Hin | Hout]; [exact Hin |].
    exfalso. apply S. split; [| exact Hout]. apply com_hash_In. eauto.
  - intros h. rewrite (coluna_hash_apos_importar agora1 df s W), contar_app.
    now rewrite contar_sobreviventes.
Qed.

Lemma C1_segunda_importacao_nada_altera_witness :
  let '(r1, s1) := importar_transacoes "05/01/2024 10:00:00" [uber_trip]
                     planilha_nova in
  let '(r2, s2) := importar_transacoes "06/01/2024 10:00:00" [uber_trip] s1 in
  r1 = Ok tt /\ r2 = Ok tt /\ s2 = s1 /\
  In (_gerar_hash_transacao uber_trip) (hashes_registrados s2).
Proof.
  pose proof (C1_segunda_importacao_nada_altera
                "05/01/2024 10:00:00" "06/01/2024 10:00:00" [uber_trip]
                planilha_nova) as T.
  destruct (importar_transacoes "05/01/2024 10:00:00" [uber_trip]
              planilha_nova) as [r1 s1].
  destruct (importar_transacoes "06/01/2024 10:00:00" [uber_trip] s1)
    as [r2 s2].
  destruct T as [T1 [T2 [_ [T3 [T4 _]]]]].
  - discriminate.
  - reflexivity.
  - exact I.
  - exists uber_trip. split; [now left | vm_compute; reflexivity].
  - repeat split; try assumption. apply T4. now left.
Defined.

(** A record whose digest is made of digits only. *)
Definition uber_trip_393043 : Transacao :=
  {| Data := "05/01/2024"; Descricao := "UBER *TRIP 393043"; Valor := -2350 |}.

(** Alone in the ledger, such a digest is read back as a number: the
    column holds no text, the second import finds nothing registered and
    appends the record again. *)
Example digest_so_de_digitos_nao_deduplica :
  let '(r1, s1) := importar_transacoes "05/01/2024 10:00:00"
                     [uber_trip_393043] planilha_nova in
  let '(r2, s2) := importar_transacoes "06/01/2024 10:00:00"
                     [uber_trip_393043] s1 in
  _gerar_hash_transacao uber_trip_393043 = "63700658239480093654976083817524" /\
  hashes_registrados s1 = [] /\
  coluna_hash s2 = [ "63700658239480093654976083817524";
                     "63700658239480093654976083817524" ].
Proof. vm_compute. repeat split. Qed.

(** X15: what the history step writes, the query reads back.  On a ledger
    with [Hash] as first column and with no failing request, after
    [_atualizar_historico] has appended the rows of a batch one of whose
    hashes does not read as a number, the query answers the cells found
    in the column, the missing ones left out, together with the hashes of
    the batch. *)
Theorem historico_escrito_e_lido
        agora (df : list Transacao) (s : Planilha) colunas dados :
  falhas s = [] ->
  historico s = Some (("Hash" :: colunas) :: dados) ->
  (exists row, In row df /\
               parece_numero (_gerar_hash_transacao row) = false) ->
  let s1 := snd (_atualizar_historico agora (com_hash df) s) in
  fst (_get_transacoes_existentes s1)
  = Ok (list_to_set (presentes (coluna_hash s)
                       ++ map _gerar_hash_transacao df)).
Proof.
  intros H Hh [t [Ht Hnum]] s1. subst s1.
  rewrite (atualizar_sem_falhas agora (com_hash df) s H), Hh. simpl snd.
  rewrite get_transacoes_sem_falhas by exact H. simpl historico. simpl fst.
  do 2 f_equal. unfold coluna_hash. rewrite Hh.
  cbn [app hashes_da_tabela indice_coluna].
  change (String.eqb "Hash" "Hash") with true. cbv iota.
  assert (C : celulas_da_coluna 0 (dados ++ map (linha_historico agora)
                                                (com_hash df))
              = celulas_da_coluna 0 dados ++ map _gerar_hash_transacao df).
  { unfold celulas_da_coluna, com_hash. now rewrite map_app, !map_map. }
  rewrite C. destruct (digest_presente t) as [N B].
  rewrite (coluna_lida_texto _ (_gerar_hash_transacao t)); try assumption.
  - unfold presentes. rewrite List.filter_app. f_equal.
    apply forallb_filter_id. apply forallb_forall. intros x Hx.
    apply in_map_iff in Hx as [row [<- _]].
    destruct (digest_presente row) as [N' _]. now rewrite N'.
  - apply in_or_app. right. now apply in_map.
Qed.

Lemma historico_escrito_e_lido_witness :
  let s := {| aba_mes := ∅; historico := Some [Config.CABECALHO_HISTORICO];
              falhas := [] |} in
  let s1 := snd (_atualizar_historico "05/01/2024 10:00:00"
                   (com_hash [uber_trip]) s) in
  fst (_get_transacoes_existentes s1)
  = Ok (list_to_set (presentes (coluna_hash s)
                       ++ map _gerar_hash_transacao [uber_trip])).
Proof.
  intros s.
  apply (historico_escrito_e_lido "05/01/2024 10:00:00" [uber_trip]
           s ["Data"; "Descricao"; "Valor"; "Data_Importacao"] []).
  - reflexivity.
  - reflexivity.
  - exists uber_trip. split; [now left | vm_compute; reflexivity].
Defined.

End LeituraDoHistorico.

(** * An import under any schedule of failures *)

Section Falhas.
Import PyStr GspreadDataframe Gspread IntegradorSheets Hashlib.

(** The index of the first failing request of a schedule. *)
Fixpoint primeira_falha (f : list bool) : option nat :=
  match f with
  | [] => None
  | true :: _ => Some O
  | false :: r => option_map S (primeira_falha r)
  end.

Lemma primeira_falha_app (a b : nat) (f : list bool) :
  primeira_falha (firstn (a + b) f)
  = match primeira_falha (firstn a f) with
    | Some j => Some j
    | None => option_map (Nat.add a) (primeira_falha (firstn b (skipn a f)))
    end.
Proof.
  revert f. induction a as [|a IH]; intros f.
  - change (firstn 0 f) with (@nil bool). change (skipn 0 f) with f.
    change (0 + b)%nat with b. cbn [primeira_falha].
    now destruct (primeira_falha (firstn b f)).
  - change (S a + b)%nat with (S (a + b)). destruct f as [|[] f].
    + simpl. now rewrite firstn_nil.
    + reflexivity.
    + change (firstn (S (a + b)) (false :: f))
        with (false :: firstn (a + b) f).
      change (firstn (S a) (false :: f)) with (false :: firstn a f).
      change (skipn (S a) (false :: f)) with (skipn a f).
      cbn [primeira_falha]. rewrite IH.
      destruct (primeira_falha (firstn a f)); cbn [option_map];
        [reflexivity |].
      now destruct (primeira_falha (firstn b (skipn a f))).
Qed.

Lemma primeira_falha_lt (n : nat) (f : list bool) (j : nat) :
  primeira_falha (firstn n f) = Some j -> (j < n)%nat.
Proof.
  revert f j. induction n as [|n IH]; intros f j; simpl; [discriminate |].
  destruct f as [|[] f]; simpl; [discriminate | intros [= <-]; lia |].
  destruct (primeira_falha (firstn n f)) as [k|] eqn:E; simpl;
    [| discriminate].
  intros [= <-]. apply IH in E. lia.
Qed.

Lemma skipn_skipn_add {A} (a b : nat) (l : list A) :
  skipn b (skipn a l) = skipn (a + b) l.
Proof.
  revert l. induction a as [|a IH]; intros l; simpl; [reflexivity |].
  destruct l; [now rewrite skipn_nil | apply IH].
Qed.

(** The writing loop: it writes row after row until a request fails. *)
Lemma inserir_linhas_spec (df : list Transacao) col linha fim (s : Planilha) :
  let w := firstn (Z.to_nat (fim - linha + 1)) df in
  inserir_linhas df col linha fim s =
    match primeira_falha (firstn (List.length w) (falhas s)) with
    | None =>
        (Ok tt,
         {| aba_mes := escrever_descricoes col linha w (aba_mes s);
            historico := historico s;
            falhas := skipn (List.length w) (falhas s) |})
    | Some j =>
        (Raise APIError,
         {| aba_mes := escrever_descricoes col linha (firstn j w) (aba_mes s);
            historico := historico s;
            falhas := skipn (S j) (falhas s) |})
    end.
Proof.
  revert linha s. induction df as [|row df IH]; intros linha s; cbv zeta.
  - rewrite firstn_nil. simpl. now destruct s.
  - cbn [inserir_linhas]. destruct (Z.ltb_spec fim linha) as [Hl | Hl].
    + replace (Z.to_nat (fim - linha + 1)) with O by lia.
      simpl. now destruct s.
    + replace (Z.to_nat (fim - linha + 1))
        with (S (Z.to_nat (fim - (linha + 1) + 1))) by lia.
      cbn [firstn List.length].
      unfold bind at 1, aba_mes_update, bind, requisicao.
      destruct s as [g h f]. cbn [falhas aba_mes historico].
      destruct f as [|[] f].
      * rewrite IH. cbv zeta. cbn [falhas aba_mes historico].
        rewrite !firstn_nil, !skipn_nil. reflexivity.
      * reflexivity.
      * rewrite IH. cbv zeta. cbn [falhas aba_mes historico firstn skipn].
        cbn [primeira_falha].
        destruct (primeira_falha _) as [j|]; reflexivity.
Qed.

(** The records a fault-free insertion writes into a section, and the row
    of the first of them. *)
Definition linhas_a_escrever (df : list Transacao) (col : string)
           (inicio fim : Z) (g : gmap (string * Z) string)
  : Z * list Transacao :=
  match proxima_linha g col inicio fim with
  | Some l =>
      if negb (l =? 0) && (l <=? fim)
      then (l, firstn (Z.to_nat (fim - l + 1)) df)
      else (inicio, [])
  | None => (inicio, [])
  end.

(** The requests of one insertion: the read of the search, then one
    write for each record written. *)
Definition pedidos_insercao (df : list Transacao) (col : string)
           (inicio fim : Z) (g : gmap (string * Z) string) : nat :=
  S (List.length (snd (linhas_a_escrever df col inicio fim g))).

(** The cells when the request of index [j] of the insertion is the
    first to fail: the writes of the [j - 1] requests before it are
    there. *)
Definition parcial_insercao (df : list Transacao) (col : string)
           (inicio fim : Z) (g : gmap (string * Z) string) (j : nat)
  : gmap (string * Z) string :=
  let '(l, w) := linhas_a_escrever df col inicio fim g in
  escrever_descricoes col l (firstn (j - 1) w) g.

Lemma apos_insercao_escrever df col inicio fim g :
  apos_insercao df col inicio fim g
  = escrever_descricoes col (fst (linhas_a_escrever df col inicio fim g))
      (snd (linhas_a_escrever df col inicio fim g)) g.
Proof.
  unfold apos_insercao, linhas_a_escrever.
  destruct (proxima_linha g col inicio fim) as [l|]; [| reflexivity].
  now destruct (negb (l =? 0) && (l <=? fim)).
Qed.

Lemma encontrar_spec col inicio fim (s : Planilha) :
  _encontrar_proxima_linha_vazia col inicio fim s =
    match falhas s with
    | true :: f =>
        (Raise APIError,
         {| aba_mes := aba_mes s; historico := historico s; falhas := f |})
    | _ =>
        (Ok (proxima_linha (aba_mes s) col inicio fim),
         {| aba_mes := aba_mes s; historico := historico s;
            falhas := skipn 1 (falhas s) |})
    end.
Proof.
  unfold _encontrar_proxima_linha_vazia, aba_mes_get, bind, requisicao,
    proxima_linha.
  destruct s as [g h f]. cbn [falhas aba_mes historico].
  destruct f as [|[] f]; cbn [falhas aba_mes historico skipn];
    try reflexivity; destruct (aparar _); reflexivity.
Qed.

Lemma inserir_generico_spec (df : list Transacao) col inicio fim (s : Planilha) :
  _inserir_generico df col inicio fim s =
    match primeira_falha
            (firstn (pedidos_insercao df col inicio fim (aba_mes s))
                    (falhas s)) with
    | None =>
        (Ok tt,
         {| aba_mes := apos_insercao df col inicio fim (aba_mes s);
            historico := historico s;
            falhas := skipn (pedidos_insercao df col inicio fim (aba_mes s))
                            (falhas s) |})
    | Some j =>
        (Raise APIError,
         {| aba_mes := parcial_insercao df col inicio fim (aba_mes s) j;
            historico := historico s;
            falhas := skipn (S j) (falhas s) |})
    end.
Proof.
  rewrite apos_insercao_escrever.
  unfold _inserir_generico, bind, pedidos_insercao, parcial_insercao,
    linhas_a_escrever.
  rewrite encontrar_spec.
  destruct s as [g h f]. cbn [falhas aba_mes historico].
  destruct (proxima_linha g col inicio fim) as [l|];
    [destruct (negb (l =? 0) && (l <=? fim)) eqn:G |];
    cbn [snd fst List.length].
  - destruct f as [|[] f]; cbv beta iota; rewrite ?G.
    + rewrite inserir_linhas_spec. cbv zeta. cbn [falhas aba_mes historico].
      now rewrite !firstn_nil, !skipn_nil.
    + reflexivity.
    + rewrite inserir_linhas_spec. cbv zeta.
      cbn [falhas aba_mes historico skipn].
      change (firstn (S (List.length (firstn (Z.to_nat (fim - l + 1)) df)))
                     (false :: f))
        with (false :: firstn (List.length
                                 (firstn (Z.to_nat (fim - l + 1)) df)) f).
      cbn [primeira_falha]. change (skipn 0 f) with f.
      destruct (primeira_falha _) as [j|]; cbn [option_map];
        [| reflexivity].
      replace (S j - 1)%nat with j by lia. reflexivity.
  - destruct f as [|[] f]; cbv beta iota; rewrite ?G; reflexivity.
  - destruct f as [|[] f]; reflexivity.
Qed.

(** The three frames of [_processar_insercoes]. *)
Definition frame_entradas (df : list LinhaHash) : list Transacao :=
  List.filter (fun r => String.eqb (tipo_de r) "Receita") (map transacao df).

Definition frame_fixos (df : list LinhaHash) : list Transacao :=
  List.filter (fun r => String.eqb (tipo_de r) "Despesa" && eh_fixo_de r)
              (map transacao df).

Definition frame_variaveis (df : list LinhaHash) : list Transacao :=
  List.filter (fun r => String.eqb (tipo_de r) "Despesa" && negb (eh_fixo_de r))
              (map transacao df).

Definition apos_entradas (df : list LinhaHash) (g : gmap (string * Z) string)
  : gmap (string * Z) string :=
  apos_insercao (frame_entradas df) Config.ENTRADAS_COL_DESCRICAO
    Config.ENTRADAS_INICIO_LINHA Config.ENTRADAS_FIM_LINHA g.

Definition apos_fixos (df : list LinhaHash) (g : gmap (string * Z) string)
  : gmap (string * Z) string :=
  apos_insercao (frame_fixos df) Config.FIXOS_COL_DESCRICAO
    Config.FIXOS_INICIO_LINHA Config.FIXOS_FIM_LINHA (apos_entradas df g).

Definition pedidos_entradas (df : list LinhaHash)
           (g : gmap (string * Z) string) : nat :=
  pedidos_insercao (frame_entradas df) Config.ENTRADAS_COL_DESCRICAO
    Config.ENTRADAS_INICIO_LINHA Config.ENTRADAS_FIM_LINHA g.

Definition pedidos_fixos (df : list LinhaHash)
           (g : gmap (string * Z) string) : nat :=
  pedidos_insercao (frame_fixos df) Config.FIXOS_COL_DESCRICAO
    Config.FIXOS_INICIO_LINHA Config.FIXOS_FIM_LINHA (apos_entradas df g).

Definition pedidos_variaveis (df : list LinhaHash)
           (g : gmap (string * Z) string) : nat :=
  pedidos_insercao (frame_variaveis df) Config.VARIAVEIS_COL_DESCRICAO
    Config.VARIAVEIS_INICIO_LINHA Config.VARIAVEIS_FIM_LINHA (apos_fixos df g).

(** The requests of the three insertions on the cells [g], when none
    fails: for each section one read, and one write for each row it
    takes. *)
Definition pedidos_processar (df : list LinhaHash)
           (g : gmap (string * Z) string) : nat :=
  pedidos_entradas df g + (pedidos_fixos df g + pedidos_variaveis df g).

(** The cells when the request of index [j] of the three insertions is
    the first to fail: everything written by the requests before it. *)
Definition parcial_processar (df : list LinhaHash)
           (g : gmap (string * Z) string) (j : nat)
  : gmap (string * Z) string :=
  if (j <? pedidos_entradas df g)%nat then
    parcial_insercao (frame_entradas df) Config.ENTRADAS_COL_DESCRICAO
      Config.ENTRADAS_INICIO_LINHA Config.ENTRADAS_FIM_LINHA g j
  else if (j - pedidos_entradas df g <? pedidos_fixos df g)%nat then
    parcial_insercao (frame_fixos df) Config.FIXOS_COL_DESCRICAO
      Config.FIXOS_INICIO_LINHA Config.FIXOS_FIM_LINHA (apos_entradas df g)
      (j - pedidos_entradas df g)
  else
    parcial_insercao (frame_variaveis df) Config.VARIAVEIS_COL_DESCRICAO
      Config.VARIAVEIS_INICIO_LINHA Config.VARIAVEIS_FIM_LINHA
      (apos_fixos df g)
      (j - pedidos_entradas df g - pedidos_fixos df g).

Lemma processar_spec (df : list LinhaHash) (s : Planilha) :
  _processar_insercoes df s =
    match primeira_falha
            (firstn (pedidos_processar df (aba_mes s)) (falhas s)) with
    | None =>
        (Ok tt,
         {| aba_mes := apos_processar df (aba_mes s);
            historico := historico s;
            falhas := skipn (pedidos_processar df (aba_mes s)) (falhas s) |})
    | Some j =>
        (Raise APIError,
         {| aba_mes := parcial_processar df (aba_mes s) j;
            historico := historico s;
            falhas := skipn (S j) (falhas s) |})
    end.
Proof.
  destruct s as [g h f]. cbn [aba_mes historico falhas].
  change (apos_processar df g)
    with (apos_insercao (frame_variaveis df) Config.VARIAVEIS_COL_DESCRICAO
            Config.VARIAVEIS_INICIO_LINHA Config.VARIAVEIS_FIM_LINHA
            (apos_fixos df g)).
  unfold _processar_insercoes, _inserir_entradas, _inserir_gastos_fixos,
    _inserir_gastos_variaveis, bind, pedidos_processar, parcial_processar.
  fold (frame_entradas df) (frame_fixos df) (frame_variaveis df).
  rewrite inserir_generico_spec. cbn [aba_mes historico falhas].
  fold (pedidos_entradas df g) (apos_entradas df g).
  rewrite primeira_falha_app.
  destruct (primeira_falha (firstn (pedidos_entradas df g) f)) as [j1|] eqn:E1.
  { apply primeira_falha_lt in E1. apply Nat.ltb_lt in E1. now rewrite E1. }
  rewrite inserir_generico_spec. cbn [aba_mes historico falhas].
  fold (pedidos_fixos df g) (apos_fixos df g).
  rewrite primeira_falha_app.
  destruct (primeira_falha (firstn (pedidos_fixos df g)
                                   (skipn (pedidos_entradas df g) f)))
    as [j2|] eqn:E2; cbn [option_map].
  { apply primeira_falha_lt in E2.
    assert (A : (pedidos_entradas df g + j2 <? pedidos_entradas df g)%nat
                = false) by (apply Nat.ltb_ge; lia).
    rewrite A.
    replace (pedidos_entradas df g + j2 - pedidos_entradas df g)%nat
      with j2 by lia.
    apply Nat.ltb_lt in E2. rewrite E2.
    rewrite skipn_skipn_add.
    now replace (pedidos_entradas df g + S j2)%nat
      with (S (pedidos_entradas df g + j2)) by lia. }
  rewrite inserir_generico_spec. cbn [aba_mes historico falhas].
  fold (pedidos_variaveis df g).
  rewrite !skipn_skipn_add.
  destruct (primeira_falha (firstn (pedidos_variaveis df g) _))
    as [j3|] eqn:E3; cbn [option_map].
  - assert (A : (pedidos_entradas df g + (pedidos_fixos df g + j3)
                 <? pedidos_entradas df g)%nat = false)
      by (apply Nat.ltb_ge; lia).
    rewrite A.
    assert (B : (pedidos_entradas df g + (pedidos_fixos df g + j3)
                 - pedidos_entradas df g <? pedidos_fixos df g)%nat = false)
      by (apply Nat.ltb_ge; lia).
    rewrite B.
    replace (pedidos_entradas df g + (pedidos_fixos df g + j3)
             - pedidos_entradas df g - pedidos_fixos df g)%nat
      with j3 by lia.
    rewrite skipn_skipn_add.
    replace (pedidos_entradas df g + pedidos_fixos df g + S j3)%nat
      with (S (pedidos_entradas df g + (pedidos_fixos df g + j3))) by lia.
    reflexivity.
  - now rewrite Nat.add_assoc.
Qed.

Lemma atualizar_spec agora (df : list LinhaHash) (s : Planilha) linhas :
  historico s = Some linhas ->
  _atualizar_historico agora df s =
    (Ok tt,
     match primeira_falha (firstn 3 (falhas s)) with
     | None =>
         {| aba_mes := aba_mes s;
            historico := Some (linhas ++ map (linha_historico agora) df);
            falhas := skipn 3 (falhas s) |}
     | Some j =>
         {| aba_mes := aba_mes s; historico := Some linhas;
            falhas := skipn (S j) (falhas s) |}
     end).
Proof.
  destruct s as [g h f]. cbn [aba_mes historico falhas]. intros ->.
  unfold _atualizar_historico, tentar, bind, worksheet_historico,
    get_all_values, historico_update, bind, requisicao.
  destruct f as [|[] [|[] [|[] f]]]; simpl;
    rewrite ?Nat.add_sub, ?escrever_em_fim; reflexivity.
Qed.

Lemma get_transacoes_spec (s : Planilha) :
  _get_transacoes_existentes s =
    match historico s with
    | Some linhas =>
        match primeira_falha (firstn 2 (falhas s)) with
        | None =>
            (Ok (list_to_set (hashes_da_tabela linhas)),
             {| aba_mes := aba_mes s; historico := Some linhas;
                falhas := skipn 2 (falhas s) |})
        | Some j =>
            (Raise APIError,
             {| aba_mes := aba_mes s; historico := Some linhas;
                falhas := skipn (S j) (falhas s) |})
        end
    | None =>
        match primeira_falha (firstn 3 (falhas s)) with
        | None =>
            (Ok ∅,
             {| aba_mes := aba_mes s;
                historico := Some [Config.CABECALHO_HISTORICO];
                falhas := skipn 3 (falhas s) |})
        | Some j =>
            (Raise APIError,
             {| aba_mes := aba_mes s;
                historico := if (2 <=? j)%nat then Some [] else None;
                falhas := skipn (S j) (falhas s) |})
        end
    end.
Proof.
  destruct s as [g h f]. cbn [aba_mes historico falhas].
  unfold _get_transacoes_existentes, tentar, bind, worksheet_historico,
    get_all_values, _criar_aba_historico, add_worksheet_historico,
    historico_update, bind, requisicao.
  destruct h as [linhas|]; destruct f as [|[] [|[] [|[] f]]]; reflexivity.
Qed.

(** C7, as the code has it.  Whichever requests fail, an import ends in
    one of four ways, decided by the first failing request.  The ledger
    query makes [q] requests (2 on an existing ledger, 3 when it has to
    create one): when one of them fails, the import raises [APIError] and
    no cell of the month's worksheet is touched.  When the query
    succeeds and records survive the filter, the three insertions make
    [n] requests: when the one of index [j] is the first to fail, the
    import raises [APIError], the cells written by the requests before it
    stay written, and the ledger gets no entry.  When no insertion
    request fails, the import returns normally whatever happens in the
    history step: the entries are appended when none of its 3 requests
    fails, and otherwise the failure is caught, the rows stay written
    and the ledger is as the query left it. *)
Theorem C7_falhas_na_importacao (agora : string) (df : list Transacao)
        (s : Planilha) :
  let f := falhas s in
  let q := match historico s with Some _ => 2%nat | None => 3%nat end in
  let linhas := default [Config.CABECALHO_HISTORICO] (historico s) in
  let novas := sobreviventes (hashes_registrados s) df in
  let n := pedidos_processar novas (aba_mes s) in
  let '(r, s') := importar_transacoes agora df s in
  match primeira_falha (firstn q f) with
  | Some _ => r = Raise APIError /\ aba_mes s' = aba_mes s
  | None =>
      match novas with
      | [] =>
          r = Ok tt /\ aba_mes s' = aba_mes s /\ historico s' = Some linhas
      | _ :: _ =>
          match primeira_falha (firstn n (skipn q f)) with
          | Some j =>
              r = Raise APIError /\
              aba_mes s' = parcial_processar novas (aba_mes s) j /\
              historico s' = Some linhas
          | None =>
              r = Ok tt /\
              aba_mes s' = apos_processar novas (aba_mes s) /\
              historico s'
              = match primeira_falha (firstn 3 (skipn (q + n) f)) with
                | None =>
                    Some (linhas ++ map (linha_historico agora) novas)
                | Some _ => Some linhas
                end
          end
      end
  end.
Proof.
  destruct s as [g h f]. cbn [aba_mes historico falhas]. cbv zeta.
  unfold importar_transacoes, bind. rewrite get_transacoes_spec.
  cbn [aba_mes historico falhas].
  destruct h as [linhas|]; cbn [default].
  - destruct (primeira_falha (firstn 2 f)) as [j0|]; [split; reflexivity |].
    rewrite sobreviventes_gset.
    change (hashes_registrados
              {| aba_mes := g; historico := Some linhas; falhas := f |})
      with (hashes_da_tabela linhas).
    destruct (sobreviventes (hashes_da_tabela linhas) df) as [|r0 rs] eqn:N;
      [repeat split |].
    unfold bind. rewrite processar_spec. cbn [aba_mes historico falhas].
    destruct (primeira_falha (firstn _ (skipn 2 f))) as [j|];
      [repeat split |].
    rewrite atualizar_spec with (linhas := linhas) by reflexivity.
    cbn [aba_mes historico falhas]. rewrite skipn_skipn_add.
    destruct (primeira_falha (firstn 3 _)); repeat split.
  - destruct (primeira_falha (firstn 3 f)) as [j0|]; [split; reflexivity |].
    change (∅ : gset string) with (list_to_set (@nil string) : gset string).
    rewrite sobreviventes_gset.
    change (hashes_registrados
              {| aba_mes := g; historico := None; falhas := f |})
      with (@nil string).
    destruct (sobreviventes [] df) as [|r0 rs] eqn:N; [repeat split |].
    unfold bind. rewrite processar_spec. cbn [aba_mes historico falhas].
    destruct (primeira_falha (firstn _ (skipn 3 f))) as [j|];
      [repeat split |].
    rewrite atualizar_spec with (linhas := [Config.CABECALHO_HISTORICO])
      by reflexivity.
    cbn [aba_mes historico falhas]. rewrite skipn_skipn_add.
    destruct (primeira_falha (firstn 3 _)); repeat split.
Qed.

(** Two variable expenses on a ledger with its header only: requests 1
    and 2 are the query, 3 to 5 the reads of the three sections, 6 and 7
    the writes of the two rows.  When the 6th fails the import raises and
    nothing is written or recorded. *)
Example falha_na_primeira_escrita :
  let '(r, s') := importar_transacoes "05/01/2024 10:00:00"
                    [uber_trip; mercado] (falha_na_requisicao 6) in
  r = Raise APIError /\
  aba_mes s' !! ("B", 25) = None /\
  aba_mes s' !! ("B", 26) = None /\
  historico s' = Some [Config.CABECALHO_HISTORICO].
Proof. vm_compute. repeat split. Qed.

(** When the 7th fails the first row is written, the second is not, and
    the ledger has no entry for either. *)
Example falha_na_segunda_escrita :
  let '(r, s') := importar_transacoes "05/01/2024 10:00:00"
                    [uber_trip; mercado] (falha_na_requisicao 7) in
  r = Raise APIError /\
  aba_mes s' !! ("B", 25) = Some "UBER *TRIP" /\
  aba_mes s' !! ("B", 26) = None /\
  historico s' = Some [Config.CABECALHO_HISTORICO].
Proof. vm_compute. repeat split. Qed.

End Falhas.

(** * The type of the column [Valor] *)

Section TipoDaColuna.
Import PyStr Texto Hashlib IntegradorSheets.




















End TipoDaColuna.
